(** * Test-backend wiring: a shallow embedding of
      [packages/backend-test-utils/src/next/wiring/TestBackend.ts]

    The file embeds the three parts of the test harness:
    - [createExtensionPointTestModules]: feature validation, the
      extension-point ownership scan and the synthesized modules;
    - [startTestBackend]: the service factory list, the two HTTP bridge
      factories (root router and discovery) and the [server] accessor;
    - [registerTestHooks]: the process-wide teardown pass.

    JavaScript [Map] and [Set] iterate in insertion order, and both the
    error message and the order of the synthesized modules depend on it:
    they are modelled as lists (key-unique association lists for [Map]). *)

From Stdlib Require Import String Ascii List Bool Arith NArith Lia.
From Stdlib Require Import DecimalString DecimalN.
Import ListNotations.
Open Scope string_scope.
Open Scope list_scope.

Set Implicit Arguments.

(* ------------------------------------------------------------------ *)
(** ** Thrown errors *)

(** A computation either returns a value or throws [new Error(msg)]. *)
Inductive Result (A : Type) : Type :=
| Ok (a : A)
| Throw (msg : string).

Arguments Ok {A} a.
Arguments Throw {A} msg.

Definition bind {A B} (r : Result A) (k : A -> Result B) : Result B :=
  match r with
  | Ok a => k a
  | Throw msg => Throw msg
  end.

Notation "'let*' x ':=' r 'in' k" := (bind r (fun x => k))
  (at level 10, x name, r at level 100, k at level 200).

(* ------------------------------------------------------------------ *)
(** ** Insertion-ordered containers and string helpers of the runtime *)

Module Js.

(** [Array.prototype.join]. *)
Fixpoint join (sep : string) (l : list string) : string :=
  match l with
  | [] => ""
  | [x] => x
  | x :: rest => (x ++ sep ++ join sep rest)%string
  end.

(** A number in a template literal: its decimal digits. *)
Definition showNumber (n : N) : string :=
  NilEmpty.string_of_uint (N.to_uint n).

(** [Set<string>]: the elements in insertion order, without repeats. *)
Definition StrSet := list string.

Definition setHas (x : string) (s : StrSet) : bool :=
  existsb (String.eqb x) s.

Definition setAdd (x : string) (s : StrSet) : StrSet :=
  if setHas x s then s else s ++ [x].

Definition setDelete (x : string) (s : StrSet) : StrSet :=
  filter (fun y => negb (String.eqb x y)) s.

(** [new Set(iterable)] *)
Definition setOf (l : list string) : StrSet :=
  fold_left (fun s x => setAdd x s) l [].

(** [Map<string, V>]: the entries in insertion order, keys unique. *)
Definition StrMap (V : Type) := list (string * V).

Fixpoint mapGet {V} (k : string) (m : StrMap V) : option V :=
  match m with
  | [] => None
  | (k', v) :: rest => if String.eqb k k' then Some v else mapGet k rest
  end.

(** [m.set(k, v)]: an existing key keeps its position. *)
Fixpoint mapSet {V} (k : string) (v : V) (m : StrMap V) : StrMap V :=
  match m with
  | [] => [(k, v)]
  | (k', v') :: rest =>
      if String.eqb k k' then (k', v) :: rest
      else (k', v') :: mapSet k v rest
  end.

(** [new Map(entries)] *)
Definition mapOf {V} (entries : list (string * V)) : StrMap V :=
  fold_left (fun m kv => mapSet (fst kv) (snd kv) m) entries [].

Definition mapKeys {V} (m : StrMap V) : list string := map fst m.

End Js.

(* ------------------------------------------------------------------ *)
(** ** Data model *)

Section Wiring.

(** Opaque runtime values: extension-point and service implementations
    ([unknown] in the source), user factory and init functions. *)
Variable JsValue : Type.

Inductive ServiceScope := RootScope | PluginScope.

Record ServiceRef := { sr_id : string; sr_scope : ServiceScope }.

Record ExtensionPoint := { ep_id : string }.

(** A value of an [init.deps] object: a service reference or an
    extension point; the scan only reads its [id]. *)
Inductive DepRef :=
| DepService (r : ServiceRef)
| DepExtensionPoint (e : ExtensionPoint).

Definition dep_id (d : DepRef) : string :=
  match d with
  | DepService r => sr_id r
  | DepExtensionPoint e => ep_id e
  end.

(** An object used as a named map; the list is its own-property order,
    so [Object.values] is the list of second components. *)
Definition Deps := list (string * DepRef).

Definition objectValues (deps : Deps) : list DepRef := map snd deps.

Inductive InitFunc :=
| NoopInit                      (* [async init() {}] *)
| UserInit (body : JsValue).

Inductive RegistrationType := PluginReg | ModuleReg.

Record Registration := {
  reg_type : RegistrationType;
  reg_pluginId : string;
  reg_extensionPoints : list (ExtensionPoint * JsValue);
  reg_deps : Deps;                 (* [init.deps] *)
  reg_init : InitFunc;             (* [init.func] *)
}.

(** A feature as the harness reads it: the [$$type] tag, the [version]
    of the internal view, and what [getRegistrations()] returns. *)
Record BackendFeature := {
  f_type : string;
  f_version : string;
  f_getRegistrations : list Registration;
}.

(** The calls a [register(reg)] callback makes on its registrar. *)
Inductive RegistrarCall :=
| RegisterExtensionPoint (ref : ExtensionPoint) (impl : JsValue)
| RegisterInit (deps : Deps) (init : InitFunc).

(** The argument of [createBackendModule]; [bm_register] is the run of
    the [register] callback: the calls it makes, or the error it
    throws. *)
Record BackendModuleConfig := {
  bm_pluginId : string;
  bm_moduleId : string;
  bm_register : Result (list RegistrarCall);
}.

(** [createBackendModule(config)()] lives in the plugin API package. *)
Variable createBackendModule : BackendModuleConfig -> BackendFeature.

Definition ExtensionPointTuple := (ExtensionPoint * JsValue)%type.

(* ---------------------------------------------------------------- *)
(** ** createExtensionPointTestModules *)

(** The callback of [features.flatMap]. *)
Definition featureRegistrations (feature : BackendFeature)
  : Result (list Registration) :=
  if negb (String.eqb (f_type feature) "@backstage/BackendFeature") then
    Throw ("Failed to add feature, invalid type '"
           ++ f_type feature ++ "'")%string
  else if negb (String.eqb (f_version feature) "v1") then
    Throw ("Failed to add feature, invalid version '"
           ++ f_version feature ++ "'")%string
  else Ok (f_getRegistrations feature).

(** [features.flatMap(...)]: left to right, the first throw escapes. *)
Fixpoint flatMapFeatures (features : list BackendFeature)
  : Result (list Registration) :=
  match features with
  | [] => Ok []
  | feature :: rest =>
      let* regs := featureRegistrations feature in
      let* more := flatMapFeatures rest in
      Ok (regs ++ more)
  end.

(** [new Map(extensionPointTuples.map(ep => [ep[0].id, ep]))] *)
Definition extensionPointMapOf (tuples : list ExtensionPointTuple)
  : Js.StrMap ExtensionPointTuple :=
  Js.mapOf (map (fun ep => (ep_id (fst ep), ep)) tuples).

(** The state of the ownership scan: the pending set
    [extensionPointsToSort] and the map [extensionPointsByPlugin]. *)
Record ScanState := {
  extensionPointsToSort : Js.StrSet;
  extensionPointsByPlugin : Js.StrMap (list string);
}.

(** [Object.values(registration.init.deps).filter(dep => ...has(dep.id))] *)
Definition testDepOf (pending : Js.StrSet) (registration : Registration)
  : list DepRef :=
  filter (fun dep => Js.setHas (dep_id dep) pending)
         (objectValues (reg_deps registration)).

(** The inner loop: [points.push(id); extensionPointsToSort.delete(id)].
    The array [points] is the one stored in the map, so the pushes are
    seen through the map entry. *)
Definition pushAndDelete (st : list string * Js.StrSet) (dep : DepRef)
  : list string * Js.StrSet :=
  (fst st ++ [dep_id dep], Js.setDelete (dep_id dep) (snd st)).

(** The body of [for (const registration of registrations)]. *)
Definition scanRegistration (st : ScanState) (registration : Registration)
  : ScanState :=
  match reg_type registration with
  | PluginReg => st
  | ModuleReg =>
      let testDep := testDepOf (extensionPointsToSort st) registration in
      match testDep with
      | [] => st
      | _ :: _ =>
          let byPlugin := extensionPointsByPlugin st in
          let points :=
            match Js.mapGet (reg_pluginId registration) byPlugin with
            | Some points => points
            | None => []
            end in
          let '(points', pending') :=
            fold_left pushAndDelete testDep
                      (points, extensionPointsToSort st) in
          {| extensionPointsToSort := pending';
             extensionPointsByPlugin :=
               Js.mapSet (reg_pluginId registration) points' byPlugin |}
      end
  end.

Definition scanRegistrations (st : ScanState)
           (registrations : list Registration) : ScanState :=
  fold_left scanRegistration registrations st.

Definition initialScan (tuples : list ExtensionPointTuple) : ScanState :=
  {| extensionPointsToSort :=
       Js.setOf (Js.mapKeys (extensionPointMapOf tuples));
     extensionPointsByPlugin := [] |}.

Definition unresolvedMessage (pending : Js.StrSet) : string :=
  ("Unable to determine the plugin ID of extension point(s) "
   ++ Js.join ", " (map (fun id => "'" ++ id ++ "'") pending)
   ++ ". "
   ++ "Tested extension points must be depended on by one or more tested modules.")%string.

(** The [register(reg)] callback of a synthesized module.  The source
    spreads [extensionPointMap.get(id)!]; spreading [undefined] throws a
    [TypeError]. *)
Fixpoint registerExtensionPoints
         (extensionPointMap : Js.StrMap ExtensionPointTuple)
         (ids : list string) : Result (list RegistrarCall) :=
  match ids with
  | [] => Ok []
  | id :: rest =>
      match Js.mapGet id extensionPointMap with
      | None => Throw "undefined is not iterable"
      | Some tuple =>
          let* calls := registerExtensionPoints extensionPointMap rest in
          Ok (RegisterExtensionPoint (fst tuple) (snd tuple) :: calls)
      end
  end.

Definition registerTestModule
           (extensionPointMap : Js.StrMap ExtensionPointTuple)
           (pluginExtensionPointIds : list string)
  : Result (list RegistrarCall) :=
  let* calls :=
    registerExtensionPoints extensionPointMap pluginExtensionPointIds in
  Ok (calls ++ [RegisterInit [] NoopInit]).

Definition testModuleConfig
           (extensionPointMap : Js.StrMap ExtensionPointTuple)
           (entry : string * list string) : BackendModuleConfig :=
  {| bm_pluginId := fst entry;
     bm_moduleId := "testExtensionPointRegistration";
     bm_register := registerTestModule extensionPointMap (snd entry) |}.

(** The configurations handed to [createBackendModule], in order. *)
Definition testModuleConfigs
           (extensionPointMap : Js.StrMap ExtensionPointTuple)
           (byPlugin : Js.StrMap (list string)) : list BackendModuleConfig :=
  map (testModuleConfig extensionPointMap) byPlugin.

(** Ownership resolution on already normalized registrations: the scan
    and the check that follows it. *)
Definition resolveOwnership (registrations : list Registration)
           (tuples : list ExtensionPointTuple)
  : Result (Js.StrMap (list string)) :=
  let st := scanRegistrations (initialScan tuples) registrations in
  match extensionPointsToSort st with
  | [] => Ok (extensionPointsByPlugin st)
  | _ :: _ => Throw (unresolvedMessage (extensionPointsToSort st))
  end.

(** *** Reading the result of the scan *)

(** The ids of the supplied extension points, in the order given. *)
Definition suppliedIds (tuples : list ExtensionPointTuple) : list string :=
  map (fun ep => ep_id (fst ep)) tuples.

(** [registration] is module-kind and lists [id] among the ids of its
    init dependencies. *)
Definition dependsOn (id : string) (registration : Registration) : bool :=
  match reg_type registration with
  | ModuleReg =>
      existsb (fun dep => String.eqb id (dep_id dep))
              (objectValues (reg_deps registration))
  | PluginReg => false
  end.

(** The first registration, in scan order, that depends on [id]. *)
Definition firstDependent (id : string) (registrations : list Registration)
  : option Registration :=
  find (dependsOn id) registrations.

(** [id] is in the array stored under [pluginId]: the plugin owns it. *)
Definition ownedBy (byPlugin : Js.StrMap (list string))
           (pluginId id : string) : Prop :=
  exists ids, Js.mapGet pluginId byPlugin = Some ids /\ In id ids.

(** Keys are unique and no plugin is stored with an empty array. *)
Definition wellFormedOwners (byPlugin : Js.StrMap (list string)) : Prop :=
  NoDup (Js.mapKeys byPlugin) /\ Forall (fun kv => snd kv <> []) byPlugin.

(** [part] occurs in [whole]. *)
Definition contains (whole part : string) : Prop :=
  exists pre post, whole = (pre ++ part ++ post)%string.

Definition createExtensionPointTestModules
           (features : list BackendFeature)
           (extensionPointTuples : option (list ExtensionPointTuple))
  : Result (list BackendFeature) :=
  match extensionPointTuples with
  | None => Ok []
  | Some tuples =>
      let* registrations := flatMapFeatures features in
      let* byPlugin := resolveOwnership registrations tuples in
      Ok (map createBackendModule
              (testModuleConfigs (extensionPointMapOf tuples) byPlugin))
  end.

(* ---------------------------------------------------------------- *)
(** ** Service factories of startTestBackend *)

Inductive FactoryFunc :=
| ConstFactory (impl : JsValue)      (* [async () => impl] *)
| UserFactory (body : JsValue)       (* a factory written by the caller *)
| RootHttpRouterFunc                 (* the harness's root router factory *)
| DiscoveryFunc                      (* the harness's discovery factory *)
| MockFactory (name : string).       (* a [mockServices.*.factory()] *)

(** Modelled from the spec: [createServiceFactory(config)()] of the
    plugin API package is missing; a service factory owns its service
    reference, a named map of dependencies and a construction
    function, which is exactly the configuration the source passes. *)
Record ServiceFactory := {
  service : ServiceRef;
  sf_deps : list (string * ServiceRef);
  sf_factory : FactoryFunc;
}.

(** The [coreServices] references the harness names. *)
Record CoreServices := {
  cs_rootHttpRouter : ServiceRef;
  cs_discovery : ServiceRef;
  cs_rootConfig : ServiceRef;
  cs_rootLifecycle : ServiceRef;
  cs_rootLogger : ServiceRef;
}.

Variable coreServices : CoreServices.

(** The list of [mockServices.*.factory()] values. *)
Variable defaultServiceFactories : list ServiceFactory.

(** An element of the [services] option. *)
Inductive ServiceDef :=
| DefTuple (ref : ServiceRef) (impl : JsValue)   (* [[ref, impl]] *)
| DefFunction (produces : ServiceFactory)        (* [() => factory] *)
| DefFactory (factory : ServiceFactory).

(** The callback of [services.map]. *)
Definition serviceDefFactory (serviceDef : ServiceDef) : ServiceFactory :=
  match serviceDef with
  | DefTuple ref impl =>
      match sr_scope ref with
      | PluginScope =>
          {| service := ref; sf_deps := []; sf_factory := ConstFactory impl |}
      | RootScope =>
          {| service := ref; sf_deps := []; sf_factory := ConstFactory impl |}
      end
  | DefFunction produces => produces
  | DefFactory factory => factory
  end.

Definition serviceId (f : ServiceFactory) : string := sr_id (service f).

(** [factories.some(f => f.service.id === id)] *)
Definition someServiceId (id : string) (factories : list ServiceFactory)
  : bool :=
  existsb (fun f => String.eqb (serviceId f) id) factories.

(** The body of [for (const factory of defaultServiceFactories)]. *)
Definition pushDefault (factories : list ServiceFactory)
           (factory : ServiceFactory) : list ServiceFactory :=
  if negb (someServiceId (serviceId factory) factories)
  then factories ++ [factory]
  else factories.

Definition withDefaults (factories defaults : list ServiceFactory)
  : list ServiceFactory :=
  fold_left pushDefault defaults factories.

(** An element of the [services] option of [createSpecializedBackend]:
    a factory, or a function that produces one. *)
Inductive ServiceFactoryOrFunction :=
| FactoryValue (factory : ServiceFactory)
| FactoryFunction (produces : ServiceFactory).

(** What [rootHttpRouterFactory()] produces; the source keeps the
    uncalled result of [createServiceFactory]. *)
Definition rootHttpRouterFactory : ServiceFactory :=
  {| service := cs_rootHttpRouter coreServices;
     sf_deps := [("config", cs_rootConfig coreServices);
                 ("lifecycle", cs_rootLifecycle coreServices);
                 ("rootLogger", cs_rootLogger coreServices)];
     sf_factory := RootHttpRouterFunc |}.

(** What [discoveryFactory()] produces. *)
Definition discoveryFactory : ServiceFactory :=
  {| service := cs_discovery coreServices;
     sf_deps := [("rootHttpRouter", cs_rootHttpRouter coreServices)];
     sf_factory := DiscoveryFunc |}.

(** The [services] array given to [createSpecializedBackend]:
    [[...factories, rootHttpRouterFactory, discoveryFactory]]. *)
Definition specializedBackendServices (services : list ServiceDef)
  : list ServiceFactoryOrFunction :=
  map FactoryValue
      (withDefaults (map serviceDefFactory services) defaultServiceFactories)
  ++ [FactoryFunction rootHttpRouterFactory;
      FactoryFunction discoveryFactory].

(* ---------------------------------------------------------------- *)
(** ** The HTTP bridge: root router and discovery *)

(** The server of the backend app package: [createHttpServer] with the
    port it is asked to listen on, [server.start()] and [server.port()].
    A server is a mutable object; [serverStart] gives its state once
    [start()] has resolved. *)
Variable ExtendedHttpServer : Type.
Variable createHttpServer : N -> Result ExtendedHttpServer.
Variable serverStart : ExtendedHttpServer -> Result ExtendedHttpServer.
Variable serverPort : ExtendedHttpServer -> Result N.

(** The closure variable [let server: ExtendedHttpServer], unset until
    the root router factory assigns it. *)
Definition ServerVar := option ExtendedHttpServer.

(** The [factory] of [rootHttpRouterFactory] as far as the variable
    [server] is concerned: whether the factory resolved, and the
    variable afterwards.
    [server = await createHttpServer(app, {listen: {host: '', port: 0}})]
    assigns the variable, [await server.start()] follows. *)
Definition rootHttpRouterRun (server : ServerVar) : Result unit * ServerVar :=
  match createHttpServer 0%N with
  | Throw msg => (Throw msg, server)
  | Ok created =>
      match serverStart created with
      | Throw msg => (Throw msg, Some created)
      | Ok started => (Ok tt, Some started)
      end
  end.

(** The configuration [HostDiscovery.fromConfig] is built from. *)
Record Discovery := {
  backend_baseUrl : string;
  backend_listen_port : N;
}.

(** The [factory()] of [discoveryFactory]. *)
Definition discoveryRun (server : ServerVar) : Result Discovery :=
  match server with
  | None => Throw "Test server not started yet"
  | Some s =>
      let* port := serverPort s in
      Ok {| backend_baseUrl :=
              ("http://localhost:" ++ Js.showNumber port)%string;
            backend_listen_port := port |}
  end.

(** The getter [get server()] of the object literal given to
    [Object.assign]. *)
Definition serverGetter (server : ServerVar) : Result ExtendedHttpServer :=
  match server with
  | None => Throw "TestBackend server is not available"
  | Some s => Ok s
  end.

(* ---------------------------------------------------------------- *)
(** ** startTestBackend *)

(** Handles of backends built by [createSpecializedBackend], which
    lives in the backend app package and may reject its options. *)
Variable Backend : Type.
Variable createSpecializedBackend :
  list ServiceFactoryOrFunction -> Result Backend.

(** What [await backend.start()] does to this file's closures: whether
    it ran the harness's root router factory, and whether it resolved. *)
Record StartOutcome := {
  so_routerRan : bool;
  so_result : Result unit;
}.

(** [backend.add(f)] for each of the given features, in order, followed
    by [await backend.start()]; an error of either is the outcome's. *)
Variable backendStart : Backend -> list BackendFeature -> StartOutcome.

(** [backend.stop()]: resolves, or rejects with an error. *)
Variable backendStop : Backend -> Result unit.

Record TestBackendOptions := {
  opt_services : option (list ServiceDef);
  opt_extensionPoints : option (list ExtensionPointTuple);
  opt_features : option (list BackendFeature);
}.

Definition orEmpty {A} (o : option (list A)) : list A :=
  match o with Some l => l | None => [] end.

(** The returned object: the backend with the property [server] that
    [Object.assign] put on it. *)
Record TestBackend := {
  tb_backend : Backend;
  tb_server : ExtendedHttpServer;
}.

(** [Object.assign(backend, { get server() {...} })].  Copying an own
    enumerable property reads it from the source and writes the value
    to the target, so the getter runs once, during the copy, and the
    backend receives a plain property holding what the getter returned;
    if the getter throws, [Object.assign] throws. *)
Definition assignServer (backend : Backend) (server : ServerVar)
  : Result TestBackend :=
  let* value := serverGetter server in
  Ok {| tb_backend := backend; tb_server := value |}.

(** [startTestBackend], threading the module-level array
    [backendInstancesToCleanUp]. *)
Definition startTestBackend (options : TestBackendOptions)
           (backendInstancesToCleanUp : list Backend)
  : Result TestBackend * list Backend :=
  let services := orEmpty (opt_services options) in
  let features := orEmpty (opt_features options) in
  match createSpecializedBackend (specializedBackendServices services) with
  | Throw msg => (Throw msg, backendInstancesToCleanUp)
  | Ok backend =>
      let cleanUp := backendInstancesToCleanUp ++ [backend] in
      match createExtensionPointTestModules
              features (opt_extensionPoints options) with
      | Throw msg => (Throw msg, cleanUp)
      | Ok modules =>
          let outcome := backendStart backend (modules ++ features) in
          let server : ServerVar :=
            if so_routerRan outcome then snd (rootHttpRouterRun None)
            else None in
          match so_result outcome with
          | Throw msg => (Throw msg, cleanUp)
          | Ok _ => (assignServer backend server, cleanUp)
          end
      end
  end.

(* ---------------------------------------------------------------- *)
(** ** registerTestHooks and the teardown pass *)

(** The process as the teardown sees it. [stopCalls] and [consoleErrors]
    record the calls of [backend.stop()] and [console.error]. *)
Record Process := {
  backendInstancesToCleanUp : list Backend;
  stopCalls : list Backend;
  consoleErrors : list string;
}.

(** [`${error}`] for an [Error] object. *)
Definition errorToString (msg : string) : string :=
  ("Error: " ++ msg)%string.

(** One mapped [async backend => { try {...} catch (error) {...} }].
    The stops run concurrently in the source; the model settles them in
    list order. *)
Definition stopAndCatch (st : Process * list (Result unit))
           (backend : Backend) : Process * list (Result unit) :=
  let p := fst st in
  let p := {| backendInstancesToCleanUp := backendInstancesToCleanUp p;
              stopCalls := stopCalls p ++ [backend];
              consoleErrors := consoleErrors p |} in
  match backendStop backend with
  | Ok _ => (p, snd st ++ [Ok tt])
  | Throw error =>
      ({| backendInstancesToCleanUp := backendInstancesToCleanUp p;
          stopCalls := stopCalls p;
          consoleErrors :=
            consoleErrors p
            ++ [("Failed to stop backend after tests, "
                 ++ errorToString error)%string] |},
       snd st ++ [Ok tt])
  end.

(** What the teardown logs for one backend: nothing if its stop
    resolves, one line if it rejects. *)
Definition stopFailureLog (backend : Backend) : list string :=
  match backendStop backend with
  | Ok _ => []
  | Throw error =>
      [("Failed to stop backend after tests, " ++ errorToString error)%string]
  end.

(** [Promise.all]: rejects with the first rejection. *)
Fixpoint promiseAll (settled : list (Result unit)) : Result unit :=
  match settled with
  | [] => Ok tt
  | Ok _ :: rest => promiseAll rest
  | Throw error :: _ => Throw error
  end.

(** The callback given to [afterAll]. *)
Definition teardown (p : Process) : Result unit * Process :=
  let '(p', settled) :=
    fold_left stopAndCatch (backendInstancesToCleanUp p) (p, []) in
  match promiseAll settled with
  | Throw error => (Throw error, p')
  | Ok _ =>
      (Ok tt,
       {| backendInstancesToCleanUp := [];
          stopCalls := stopCalls p';
          consoleErrors := consoleErrors p' |})
  end.

(** [registerTestHooks]: the module-level flag [registered] and the
    number of hooks handed to [afterAll]. *)
Record HookState := {
  registered : bool;
  afterAllHooks : nat;
}.

Definition registerTestHooks (afterAllIsFunction : bool) (h : HookState)
  : HookState :=
  if negb afterAllIsFunction then h
  else if registered h then h
  else {| registered := true; afterAllHooks := S (afterAllHooks h) |}.

End Wiring.

(* ------------------------------------------------------------------ *)
(** ** A concrete harness, used to run the model on sample inputs *)

Module Demo.

Definition Value := string.

Definition registeredExtensionPoints (calls : list (RegistrarCall Value))
  : list (ExtensionPoint * Value) :=
  flat_map (fun call =>
              match call with
              | RegisterExtensionPoint ref impl => [(ref, impl)]
              | RegisterInit _ _ => []
              end) calls.

Definition registeredInit (calls : list (RegistrarCall Value))
  : Deps * InitFunc Value :=
  fold_left (fun acc call =>
               match call with
               | RegisterExtensionPoint _ _ => acc
               | RegisterInit deps init => (deps, init)
               end) calls ([], NoopInit Value).

(** Modelled from the spec: [createBackendModule] of the plugin API
    package is missing.  A module carries the expected type tag and the
    supported schema version and yields one module-kind registration,
    scoped to its plugin, holding what its [register] callback declared. *)
Definition createBackendModule (config : BackendModuleConfig Value)
  : BackendFeature Value :=
  {| f_type := "@backstage/BackendFeature";
     f_version := "v1";
     f_getRegistrations :=
       match bm_register config with
       | Ok calls =>
           [{| reg_type := ModuleReg;
               reg_pluginId := bm_pluginId config;
               reg_extensionPoints := registeredExtensionPoints calls;
               reg_deps := fst (registeredInit calls);
               reg_init := snd (registeredInit calls) |}]
       | Throw _ => []
       end |}.

Definition extensionE : ExtensionPoint := {| ep_id := "test.extension" |}.
Definition extensionF : ExtensionPoint := {| ep_id := "unowned.extension" |}.

Definition loggerRef : ServiceRef :=
  {| sr_id := "core.logger"; sr_scope := PluginScope |}.

(** A module of plugin [pluginId] depending on [extensionE] and the
    logger. *)
Definition moduleOn (pluginId : string) : Registration Value :=
  {| reg_type := ModuleReg;
     reg_pluginId := pluginId;
     reg_extensionPoints := [];
     reg_deps := [("logger", DepService loggerRef);
                  ("ext", DepExtensionPoint extensionE)];
     reg_init := UserInit "init" |}.

Definition extensionG : ExtensionPoint := {| ep_id := "other.extension" |}.

(** A module of plugin [pluginB] depending on both [extensionE] and
    [extensionG]. *)
Definition moduleOnBoth : Registration Value :=
  {| reg_type := ModuleReg;
     reg_pluginId := "pluginB";
     reg_extensionPoints := [];
     reg_deps := [("first", DepExtensionPoint extensionE);
                  ("second", DepExtensionPoint extensionG)];
     reg_init := UserInit "init" |}.

Definition pluginOf (pluginId : string) : Registration Value :=
  {| reg_type := PluginReg;
     reg_pluginId := pluginId;
     reg_extensionPoints := [(extensionE, "real")];
     reg_deps := [("ext", DepExtensionPoint extensionE)];
     reg_init := UserInit "init" |}.

Definition featureOf (registrations : list (Registration Value))
  : BackendFeature Value :=
  {| f_type := "@backstage/BackendFeature";
     f_version := "v1";
     f_getRegistrations := registrations |}.

Definition pluginA := featureOf [pluginOf "pluginA"].
Definition moduleA := featureOf [moduleOn "pluginA"].
Definition moduleBoth := featureOf [moduleOnBoth].

Definition wrongType : BackendFeature Value :=
  {| f_type := "@backstage/FrontendPlugin";
     f_version := "v1";
     f_getRegistrations := [moduleOn "pluginA"] |}.

Definition wrongVersion : BackendFeature Value :=
  {| f_type := "@backstage/BackendFeature";
     f_version := "v2";
     f_getRegistrations := [moduleOn "pluginA"] |}.

(** Which of a plugin registration and the modules of [pluginB] and
    [pluginA] depend on [test.extension], as the scan sees it. *)
Definition dependsOnSample : bool * bool * bool :=
  (dependsOn "test.extension" (pluginOf "pluginA"),
   dependsOn "test.extension" (moduleOn "pluginB"),
   dependsOn "test.extension" (moduleOn "pluginA")).

Definition rootRef (name : string) : ServiceRef :=
  {| sr_id := ("core." ++ name)%string; sr_scope := RootScope |}.

Definition coreServices : CoreServices :=
  {| cs_rootHttpRouter := rootRef "rootHttpRouter";
     cs_discovery :=
       {| sr_id := "core.discovery"; sr_scope := PluginScope |};
     cs_rootConfig := rootRef "rootConfig";
     cs_rootLifecycle := rootRef "rootLifecycle";
     cs_rootLogger := rootRef "rootLogger" |}.

Definition mockFactory (name : string) (scope : ServiceScope)
  : ServiceFactory Value :=
  {| service := {| sr_id := ("core." ++ name)%string; sr_scope := scope |};
     sf_deps := [];
     sf_factory := MockFactory Value name |}.

(** The thirteen mock services, in the order of the source. *)
Definition defaultServiceFactories : list (ServiceFactory Value) :=
  [ mockFactory "cache" PluginScope;
    mockFactory "rootConfig" RootScope;
    mockFactory "database" PluginScope;
    mockFactory "httpRouter" PluginScope;
    mockFactory "identity" PluginScope;
    mockFactory "lifecycle" PluginScope;
    mockFactory "logger" PluginScope;
    mockFactory "permissions" PluginScope;
    mockFactory "rootLifecycle" RootScope;
    mockFactory "rootLogger" RootScope;
    mockFactory "scheduler" PluginScope;
    mockFactory "tokenManager" PluginScope;
    mockFactory "urlReader" PluginScope ].

(** Modelled from the spec: [createHttpServer] and the server it
    returns are missing.  The listener binds to an ephemeral port when
    port 0 is asked for and exposes the bound port once it listens. *)
Record HttpServer := {
  srv_listenPort : N;
  srv_boundPort : option N;
}.

Definition createHttpServer (listenPort : N) : Result HttpServer :=
  Ok {| srv_listenPort := listenPort; srv_boundPort := None |}.

(** The port the system hands out when port 0 is asked for. *)
Definition ephemeralPort : N := 45871.

Definition serverStart (s : HttpServer) : Result HttpServer :=
  Ok {| srv_listenPort := srv_listenPort s;
        srv_boundPort :=
          Some (if N.eqb (srv_listenPort s) 0 then ephemeralPort
                else srv_listenPort s) |}.

Definition serverPort (s : HttpServer) : Result N :=
  match srv_boundPort s with
  | Some p => Ok p
  | None => Throw "Unexpected server address 'null'"
  end.

(** A backend handle that remembers the services it was created with. *)
Definition Backend := list (ServiceFactoryOrFunction Value).

Definition createSpecializedBackend
           (services : list (ServiceFactoryOrFunction Value))
  : Result Backend := Ok services.

(** A start that runs the harness's root router factory exactly when
    that factory was among the services. *)
Definition backendStart (backend : Backend)
           (features : list (BackendFeature Value)) : StartOutcome :=
  {| so_routerRan :=
       existsb (fun f => match f with
                         | FactoryFunction
                             {| sf_factory := RootHttpRouterFunc _ |} => true
                         | _ => false
                         end) backend;
     so_result := Ok tt |}.

(** A stop that fails for a backend created without services. *)
Definition backendStop (backend : Backend) : Result unit :=
  match backend with
  | [] => Throw "stuck"
  | _ :: _ => Ok tt
  end.

Definition serviceX : ServiceRef :=
  {| sr_id := "x"; sr_scope := PluginScope |}.

Definition factoryX : ServiceFactory Value :=
  {| service := serviceX; sf_deps := []; sf_factory := UserFactory "x2" |}.


(** Two explicit definitions of service [x]. *)
Definition duplicateServices : list (ServiceDef Value) :=
  [DefTuple serviceX "fake"; DefFactory factoryX].

Definition plainOptions : TestBackendOptions Value :=
  {| opt_services := None;
     opt_extensionPoints := None;
     opt_features := Some [pluginA] |}.

(** Three backends waiting for the teardown; the second one fails to
    stop. *)
Definition processBeforeTeardown : Process Backend :=
  {| backendInstancesToCleanUp :=
       [[FactoryValue factoryX]; []; [FactoryFunction factoryX]];
     stopCalls := [];
     consoleErrors := [] |}.

End Demo.

(* ------------------------------------------------------------------ *)
(** ** Further readings of the scan and of the feature list *)

Section Readings.

Variable JsValue : Type.

(** What the scan reads of a registration: its kind, its plugin and the
    ids of its init dependencies, in [Object.values] order. *)
Definition scanView (registration : Registration JsValue)
  : RegistrationType * string * list string :=
  (reg_type registration,
   reg_pluginId registration,
   map dep_id (objectValues (reg_deps registration))).

(** The array stored under [pluginId] in [extensionPointsByPlugin], empty
    when the plugin has no entry. *)
Definition pointsOf (byPlugin : Js.StrMap (list string)) (pluginId : string)
  : list string :=
  match Js.mapGet pluginId byPlugin with
  | Some points => points
  | None => []
  end.

(** A feature that passes both checks of the [flatMap] callback. *)
Definition acceptedFeature (feature : BackendFeature JsValue) : Prop :=
  f_type feature = "@backstage/BackendFeature" /\ f_version feature = "v1".

(** How often [id] occurs among the init dependencies of a
    registration. *)
Definition dependencyCount (id : string) (registration : Registration JsValue)
  : nat :=
  count_occ string_dec (map dep_id (objectValues (reg_deps registration))) id.

(** The factory an element of the forwarded services array stands for:
    the factory itself, or what the function produces when called. *)
Definition producedFactory (entry : ServiceFactoryOrFunction JsValue)
  : ServiceFactory JsValue :=
  match entry with
  | FactoryValue factory => factory
  | FactoryFunction produces => produces
  end.

Definition producedId (entry : ServiceFactoryOrFunction JsValue) : string :=
  serviceId (producedFactory entry).

(** The service ids met a second time while going through [ids], with
    [seen] the ids met so far. *)
Fixpoint duplicateIds (seen duplicates : Js.StrSet) (ids : list string)
  : Js.StrSet :=
  match ids with
  | [] => duplicates
  | id :: rest =>
      if Js.setHas id seen
      then duplicateIds seen (Js.setAdd id duplicates) rest
      else duplicateIds (Js.setAdd id seen) duplicates rest
  end.

(** Modelled from the spec: [createSpecializedBackend] of the backend app
    package is missing.  A service id is registered by at most one
    factory; two definitions of one id are a configuration error, thrown
    before anything is instantiated, whose message names the offending
    ids.  The backend it returns is represented by the services it was
    given. *)
Definition createSpecializedBackendStrict
           (services : list (ServiceFactoryOrFunction JsValue))
  : Result (list (ServiceFactoryOrFunction JsValue)) :=
  match duplicateIds [] [] (map producedId services) with
  | [] => Ok services
  | (_ :: _) as duplicates =>
      Throw ("Duplicate service implementations provided for "
             ++ Js.join ", " duplicates)%string
  end.

End Readings.

(* ------------------------------------------------------------------ *)
(** ** The filter class of the entity picker tests *)

Module EntityOptionFilter.

(** The part of an entity the filter reads: [entity.spec?.options]; the
    spec may be missing, and so may its [options]. *)
Record EntitySpec := { spec_options : option (list string) }.
Record Entity := { spec : option EntitySpec }.

(** [(entity.spec?.options ?? []) as string[]] *)
Definition specOptions (entity : Entity) : list string :=
  match spec entity with
  | Some s =>
      match spec_options s with
      | Some options => options
      | None => []
      end
  | None => []
  end.

(** [array.includes(v)] on strings. *)
Definition includes (array : list string) (v : string) : bool :=
  existsb (fun x => String.eqb x v) array.

(** [class EntityOptionFilter { constructor(readonly values: string[]) }] *)
Record t := { values : list string }.

(** [filterEntity(entity)]: [this.values.every(v => options.includes(v))] *)
Definition filterEntity (filter : t) (entity : Entity) : bool :=
  forallb (fun v => includes (specOptions entity) v) (values filter).

(** [toQueryValue()] *)
Definition toQueryValue (filter : t) : list string := values filter.

End EntityOptionFilter.

(* ------------------------------------------------------------------ *)
(** ** More sample inputs *)

Module Samples.

(** A module of [pluginA] whose init dependencies name [test.extension]
    under two keys. *)
Definition moduleTwice : Registration Demo.Value :=
  {| reg_type := ModuleReg;
     reg_pluginId := "pluginA";
     reg_extensionPoints := [];
     reg_deps := [("one", DepExtensionPoint Demo.extensionE);
                  ("two", DepExtensionPoint Demo.extensionE)];
     reg_init := UserInit "init" |}.

(** The same extension point supplied twice, with two implementations. *)
Definition suppliedTwice : list (ExtensionPointTuple Demo.Value) :=
  [(Demo.extensionE, "first"); (Demo.extensionG, "other");
   (Demo.extensionE, "second")].

(** [Demo.moduleOn "pluginA"] with another init function, another key
    order of names and a service reference carrying the extension
    point's id. *)
Definition moduleOnLookalike : Registration Demo.Value :=
  {| reg_type := ModuleReg;
     reg_pluginId := "pluginA";
     reg_extensionPoints := [(Demo.extensionG, "declared")];
     reg_deps := [("log", DepService Demo.loggerRef);
                  ("point",
                   DepService {| sr_id := "test.extension";
                                 sr_scope := PluginScope |})];
     reg_init := NoopInit Demo.Value |}.

(** An explicit replacement of the root HTTP router. *)
Definition routerOverride : ServiceDef Demo.Value :=
  DefTuple (cs_rootHttpRouter Demo.coreServices) "fakeRouter".

(** A server whose [start()] rejects. *)
Definition serverStartFails (s : Demo.HttpServer) : Result Demo.HttpServer :=
  Throw "listen EADDRINUSE".

Definition entityWith (options : list string) : EntityOptionFilter.Entity :=
  {| EntityOptionFilter.spec :=
       Some {| EntityOptionFilter.spec_options := Some options |} |}.

End Samples.

(* ================================================================== *)
(** * Facts about the insertion-ordered containers *)

Module JsFacts.
Import Js.

Lemma setHas_true_iff (x : string) (s : StrSet) :
  setHas x s = true <-> In x s.
Proof.
  unfold setHas. rewrite existsb_exists. split.
  - intros [y [Hy Heq]]. apply String.eqb_eq in Heq. now subst.
  - intros H. exists x. split; [assumption | apply String.eqb_refl].
Qed.

Lemma setHas_false_iff (x : string) (s : StrSet) :
  setHas x s = false <-> ~ In x s.
Proof.
  rewrite <- setHas_true_iff. destruct (setHas x s); split; congruence.
Qed.

Lemma setDelete_In (x y : string) (s : StrSet) :
  In y (setDelete x s) <-> In y s /\ y <> x.
Proof.
  unfold setDelete. rewrite filter_In, negb_true_iff, String.eqb_neq.
  split; intros [H1 H2]; split; auto.
Qed.

Lemma setAdd_In (x y : string) (s : StrSet) :
  In y (setAdd x s) <-> In y s \/ y = x.
Proof.
  unfold setAdd. destruct (setHas x s) eqn:E.
  - apply setHas_true_iff in E. split; [auto | intros [H | ->]; auto].
  - rewrite in_app_iff. simpl. intuition.
Qed.

Lemma fold_setAdd_fresh (l acc : list string) :
  NoDup (acc ++ l) -> fold_left (fun s x => setAdd x s) l acc = acc ++ l.
Proof.
  revert acc. induction l as [| x l IH]; intros acc H; simpl.
  - now rewrite app_nil_r.
  - assert (Hx : setHas x acc = false).
    { apply setHas_false_iff. intros Hin.
      apply NoDup_remove_2 in H. apply H. apply in_or_app. now left. }
    unfold setAdd at 2. rewrite Hx.
    replace (acc ++ x :: l) with ((acc ++ [x]) ++ l) in *
      by (now rewrite <- app_assoc).
    now apply IH.
Qed.

(** A set built from a list without repeats is that list. *)
Lemma setOf_NoDup (l : list string) : NoDup l -> setOf l = l.
Proof. intros H. unfold setOf. now rewrite fold_setAdd_fresh. Qed.

Section Maps.
Variable V : Type.
Implicit Types (m : StrMap V) (k : string) (v : V).

Lemma mapGet_None_iff k m : mapGet k m = None <-> ~ In k (mapKeys m).
Proof.
  induction m as [| [k' v'] m IH]; simpl.
  - intuition.
  - destruct (String.eqb_spec k k') as [-> | Hne].
    + split; [discriminate | intros H; exfalso; apply H; now left].
    + rewrite IH. intuition congruence.
Qed.

Lemma mapGet_Some_In k v m : mapGet k m = Some v -> In (k, v) m.
Proof.
  induction m as [| [k' v'] m IH]; simpl; [discriminate |].
  destruct (String.eqb_spec k k') as [-> | Hne].
  - intros [= ->]. now left.
  - intros H. right. now apply IH.
Qed.

Lemma mapGet_In_NoDup k v m :
  NoDup (mapKeys m) -> In (k, v) m -> mapGet k m = Some v.
Proof.
  induction m as [| [k' v'] m IH]; simpl; [intros _ [] |].
  intros Hnd [Heq | Hin].
  - injection Heq as -> ->. now rewrite String.eqb_refl.
  - inversion Hnd as [| ? ? Hnot Hnd']; subst.
    destruct (String.eqb_spec k k') as [-> | Hne].
    + exfalso. apply Hnot. change (In (fst (k', v)) (map fst m)).
      now apply in_map.
    + now apply IH.
Qed.

Lemma mapGet_mapSet_same k v m : mapGet k (mapSet k v m) = Some v.
Proof.
  induction m as [| [k' v'] m IH]; simpl.
  - now rewrite String.eqb_refl.
  - destruct (String.eqb_spec k k') as [-> | Hne]; simpl.
    + now rewrite String.eqb_refl.
    + destruct (String.eqb_spec k k'); [contradiction | exact IH].
Qed.

Lemma mapGet_mapSet_other k k0 v m :
  k0 <> k -> mapGet k0 (mapSet k v m) = mapGet k0 m.
Proof.
  intros Hne. induction m as [| [k' v'] m IH]; simpl.
  - destruct (String.eqb_spec k0 k); [contradiction | reflexivity].
  - destruct (String.eqb_spec k k') as [-> | Hne']; simpl.
    + destruct (String.eqb_spec k0 k'); [contradiction | reflexivity].
    + now rewrite IH.
Qed.

Lemma mapKeys_mapSet k v m :
  mapKeys (mapSet k v m)
  = if setHas k (mapKeys m) then mapKeys m else mapKeys m ++ [k].
Proof.
  induction m as [| [k' v'] m IH]; simpl; [reflexivity |].
  unfold setHas in *. simpl.
  destruct (String.eqb_spec k k') as [-> | Hne]; simpl; [reflexivity |].
  unfold mapKeys in *. rewrite IH.
  now destruct (existsb (String.eqb k) (map fst m)).
Qed.

Lemma mapKeys_mapSet_In k k0 v m :
  In k0 (mapKeys (mapSet k v m)) <-> In k0 (mapKeys m) \/ k0 = k.
Proof.
  rewrite mapKeys_mapSet. destruct (setHas k (mapKeys m)) eqn:E.
  - apply setHas_true_iff in E. split; [auto | intros [H | ->]; auto].
  - rewrite in_app_iff. simpl. intuition.
Qed.

Lemma mapKeys_mapSet_NoDup k v m :
  NoDup (mapKeys m) -> NoDup (mapKeys (mapSet k v m)).
Proof.
  intros H. rewrite mapKeys_mapSet. destruct (setHas k (mapKeys m)) eqn:E.
  - assumption.
  - apply setHas_false_iff in E.
    apply NoDup_app; [assumption | repeat constructor; intros [] | ].
    intros a Ha [<- | []]. contradiction.
Qed.

Lemma mapOf_acc_NoDup (entries : list (string * V)) m :
  NoDup (mapKeys m) ->
  NoDup (mapKeys
           (fold_left (fun m kv => mapSet (fst kv) (snd kv) m) entries m)).
Proof.
  revert m. induction entries as [| [k v] entries IH]; intros m H; simpl.
  - assumption.
  - apply IH. now apply mapKeys_mapSet_NoDup.
Qed.

Lemma mapOf_acc_keys (entries : list (string * V)) m k :
  In k (mapKeys
          (fold_left (fun m kv => mapSet (fst kv) (snd kv) m) entries m))
  <-> In k (mapKeys m) \/ In k (map fst entries).
Proof.
  revert m. induction entries as [| [k' v] entries IH]; intros m; simpl.
  - intuition.
  - rewrite IH, mapKeys_mapSet_In. intuition.
Qed.

Lemma mapOf_acc_get (entries : list (string * V)) m k v :
  mapGet k (fold_left (fun m kv => mapSet (fst kv) (snd kv) m) entries m)
  = Some v ->
  mapGet k m = Some v \/ In (k, v) entries.
Proof.
  revert m. induction entries as [| [k' v'] entries IH]; intros m; simpl.
  - auto.
  - intros H. apply IH in H. destruct H as [H | H]; [| auto].
    destruct (String.eqb_spec k k') as [-> | Hne].
    + rewrite mapGet_mapSet_same in H. injection H as ->. auto.
    + rewrite mapGet_mapSet_other in H by assumption. auto.
Qed.

Lemma mapOf_NoDup (entries : list (string * V)) :
  NoDup (mapKeys (mapOf entries)).
Proof. apply mapOf_acc_NoDup. constructor. Qed.

Lemma mapOf_keys (entries : list (string * V)) k :
  In k (mapKeys (mapOf entries)) <-> In k (map fst entries).
Proof. unfold mapOf. rewrite mapOf_acc_keys. simpl. intuition. Qed.

Lemma mapOf_get (entries : list (string * V)) k v :
  mapGet k (mapOf entries) = Some v -> In (k, v) entries.
Proof.
  intros H. apply mapOf_acc_get in H. destruct H as [H | H];
    [discriminate | assumption].
Qed.

End Maps.

Lemma append_empty_r (s : string) : (s ++ "")%string = s.
Proof. induction s as [| c s IH]; simpl; [reflexivity | now rewrite IH]. Qed.

Lemma append_assoc (s t u : string) :
  ((s ++ t) ++ u)%string = (s ++ t ++ u)%string.
Proof. induction s as [| c s IH]; simpl; [reflexivity | now rewrite IH]. Qed.

(** Every joined element is a part of the joined string. *)
Lemma join_contains (sep x : string) (l : list string) :
  In x l -> exists pre post, join sep l = (pre ++ x ++ post)%string.
Proof.
  induction l as [| y l IH]; [intros [] |].
  intros [-> | Hin].
  - destruct l as [| z l].
    + exists "", "". simpl. now rewrite append_empty_r.
    + exists "", (sep ++ join sep (z :: l))%string. reflexivity.
  - destruct (IH Hin) as (pre & post & E).
    destruct l as [| z l]; [destruct Hin |].
    exists (y ++ sep ++ pre)%string, post.
    change (join sep (y :: z :: l))
      with (y ++ sep ++ join sep (z :: l))%string.
    rewrite E. now rewrite !append_assoc.
Qed.

Lemma showNumber_inj (p q : N) : showNumber p = showNumber q -> p = q.
Proof.
  unfold showNumber. intros H. apply DecimalN.Unsigned.to_uint_inj.
  assert (E : NilEmpty.uint_of_string (NilEmpty.string_of_uint (N.to_uint p))
              = NilEmpty.uint_of_string (NilEmpty.string_of_uint (N.to_uint q)))
    by now rewrite H.
  rewrite !NilEmpty.usu in E. now injection E.
Qed.

End JsFacts.

(* ================================================================== *)
(** * The ownership scan *)

Section ScanFacts.

Variable JsValue : Type.

Implicit Types (registration : Registration JsValue)
         (registrations : list (Registration JsValue))
         (st : ScanState) (id pluginId : string).

Lemma filter_twice (A : Type) (f g : A -> bool) (l : list A) :
  filter f (filter g l) = filter (fun x => g x && f x) l.
Proof.
  induction l as [| x l IH]; simpl; [reflexivity |].
  destruct (g x); simpl; [destruct (f x) |]; now rewrite IH.
Qed.

Lemma filter_all (A : Type) (f : A -> bool) (l : list A) :
  (forall x, In x l -> f x = true) -> filter f l = l.
Proof.
  induction l as [| x l IH]; simpl; intros H; [reflexivity |].
  rewrite (H x) by now left. f_equal. apply IH. intros y Hy. apply H.
  now right.
Qed.

Lemma dependsOn_true_iff id registration :
  dependsOn id registration = true <->
  reg_type registration = ModuleReg /\
  exists dep, In dep (objectValues (reg_deps registration)) /\ dep_id dep = id.
Proof.
  unfold dependsOn. destruct (reg_type registration).
  - split; [discriminate | intros [H _]; discriminate].
  - rewrite existsb_exists. split.
    + intros [dep [Hin Heq]]. apply String.eqb_eq in Heq. eauto.
    + intros [_ [dep [Hin <-]]]. exists dep. split; [assumption |].
      apply String.eqb_refl.
Qed.

(** The inner loop pushes the ids of [testDep] in order and deletes them
    from the pending set. *)
Lemma fold_pushAndDelete (deps : list (DepRef)) (points : list string)
      (pending : Js.StrSet) :
  fold_left (@pushAndDelete) deps (points, pending)
  = (points ++ map dep_id deps,
     filter (fun id => negb (Js.setHas id (map dep_id deps))) pending).
Proof.
  revert points pending. induction deps as [| dep deps IH];
    intros points pending; simpl.
  - rewrite app_nil_r. f_equal. symmetry. now apply filter_all.
  - unfold pushAndDelete at 2. simpl. rewrite IH. f_equal.
    + now rewrite <- app_assoc.
    + unfold Js.setDelete. rewrite filter_twice. apply filter_ext.
      intros id. unfold Js.setHas. simpl.
      rewrite (String.eqb_sym id (dep_id dep)).
      now rewrite negb_orb.
Qed.

Lemma testDepOf_ids id pending registration :
  reg_type registration = ModuleReg ->
  (In id (map dep_id (testDepOf pending registration))
   <-> In id pending /\ dependsOn id registration = true).
Proof.
  intros Hmod. unfold testDepOf. rewrite in_map_iff. split.
  - intros [dep [<- Hin]]. apply filter_In in Hin. destruct Hin as [Hin Hhas].
    split; [now apply JsFacts.setHas_true_iff |].
    apply dependsOn_true_iff. eauto.
  - intros [Hpend Hdep]. apply dependsOn_true_iff in Hdep.
    destruct Hdep as [_ [dep [Hin <-]]]. exists dep. split; [reflexivity |].
    apply filter_In. split; [assumption |].
    now apply JsFacts.setHas_true_iff.
Qed.

(** One step of the scan removes from the pending set exactly the ids the
    registration depends on. *)
Lemma scanRegistration_pending st registration :
  extensionPointsToSort (scanRegistration st registration)
  = filter (fun id => negb (dependsOn id registration))
           (extensionPointsToSort st).
Proof.
  unfold scanRegistration.
  destruct (reg_type registration) eqn:Hty.
  - symmetry. apply filter_all. intros id _. unfold dependsOn.
    now rewrite Hty.
  - pose proof (fun id => testDepOf_ids id (extensionPointsToSort st)
                                         registration Hty) as Hids.
    destruct (testDepOf (extensionPointsToSort st) registration)
      as [| dep deps] eqn:Htest.
    + symmetry. apply filter_all. intros id Hin.
      destruct (dependsOn id registration) eqn:Hdep; [| reflexivity].
      exfalso. apply (proj2 (Hids id)); auto.
    + rewrite fold_pushAndDelete. cbn [extensionPointsToSort].
      apply filter_ext_in. intros id Hin. f_equal.
      destruct (dependsOn id registration) eqn:Hdep.
      * apply JsFacts.setHas_true_iff. apply Hids. auto.
      * apply JsFacts.setHas_false_iff. intros H. apply Hids in H.
        destruct H; congruence.
Qed.

(** One step of the scan records the registration's plugin as the owner
    of exactly the pending ids the registration depends on. *)
Lemma scanRegistration_owned st registration pluginId id :
  ownedBy (extensionPointsByPlugin (scanRegistration st registration))
          pluginId id
  <-> ownedBy (extensionPointsByPlugin st) pluginId id
      \/ (reg_pluginId registration = pluginId
          /\ In id (extensionPointsToSort st)
          /\ dependsOn id registration = true).
Proof.
  unfold scanRegistration.
  destruct (reg_type registration) eqn:Hty.
  - split; [auto | intros [H | (_ & _ & H)]; [assumption |]].
    unfold dependsOn in H. rewrite Hty in H. discriminate.
  - pose proof (fun id => testDepOf_ids id (extensionPointsToSort st)
                                         registration Hty) as Hids.
    destruct (testDepOf (extensionPointsToSort st) registration)
      as [| dep deps] eqn:Htest.
    + split; [auto | intros [H | (_ & H1 & H2)]; [assumption |]].
      exfalso. apply (proj2 (Hids id)); auto.
    + rewrite fold_pushAndDelete. cbn [extensionPointsByPlugin].
      unfold ownedBy.
      destruct (String.eqb_spec pluginId (reg_pluginId registration))
        as [-> | Hne].
      * rewrite JsFacts.mapGet_mapSet_same. split.
        -- intros [ids [[= <-] Hin]]. apply in_app_or in Hin.
           destruct Hin as [Hin | Hin].
           ++ left.
              destruct (Js.mapGet (reg_pluginId registration)
                                  (extensionPointsByPlugin st)) as [pts |];
                [eauto | destruct Hin].
           ++ right. apply Hids in Hin. tauto.
        -- intros [[ids [Hget Hin]] | (_ & H1 & H2)].
           ++ rewrite Hget. eexists. split; [reflexivity |].
              apply in_or_app. now left.
           ++ eexists. split; [reflexivity |]. apply in_or_app. right.
              apply Hids. auto.
      * rewrite JsFacts.mapGet_mapSet_other by assumption.
        split; [auto | intros [H | (H & _)]; [assumption | congruence]].
Qed.

(** The whole scan leaves pending exactly the ids no module depends on,
    in their original order. *)
Lemma scanRegistrations_pending registrations st :
  extensionPointsToSort (scanRegistrations st registrations)
  = filter (fun id => negb (existsb (dependsOn id) registrations))
           (extensionPointsToSort st).
Proof.
  revert st. induction registrations as [| r rs IH]; intros st; simpl.
  - symmetry. now apply filter_all.
  - unfold scanRegistrations in *. simpl. rewrite IH.
    rewrite scanRegistration_pending, filter_twice.
    apply filter_ext. intros id. now rewrite negb_orb.
Qed.

(** The whole scan gives each pending id to the plugin of the first
    registration that depends on it. *)
Lemma scanRegistrations_owned registrations st pluginId id :
  ownedBy (extensionPointsByPlugin (scanRegistrations st registrations))
          pluginId id
  <-> ownedBy (extensionPointsByPlugin st) pluginId id
      \/ (In id (extensionPointsToSort st)
          /\ option_map (@reg_pluginId JsValue)
                        (firstDependent id registrations) = Some pluginId).
Proof.
  revert st. induction registrations as [| r rs IH]; intros st.
  - simpl. split; [auto | intros [H | [_ H]]; [assumption | discriminate]].
  - unfold scanRegistrations in *. simpl fold_left. rewrite IH.
    rewrite scanRegistration_owned, scanRegistration_pending, filter_In.
    unfold firstDependent. simpl find.
    destruct (dependsOn id r) eqn:Hdep; simpl.
    + split.
      * intros [[H | (H1 & H2 & _)] | [[_ H] _]];
          [auto | right; split; [assumption | now rewrite H1] | discriminate].
      * intros [H | [H1 [= H2]]]; [auto |]. left. right. auto.
    + split.
      * intros [[H | (_ & _ & H)] | [[H1 _] H2]];
          [auto | discriminate | auto].
      * intros [H | [H1 H2]]; [auto |]. right. auto.
Qed.

End ScanFacts.

(* ================================================================== *)
(** * Shape of the owner map *)

Section OwnerMapFacts.

Variable JsValue : Type.

Implicit Types (registration : Registration JsValue)
         (registrations : list (Registration JsValue))
         (tuples : list (ExtensionPointTuple JsValue))
         (st : ScanState) (id pluginId : string).

Lemma mapSet_Forall (V : Type) (P : V -> Prop) k v (m : Js.StrMap V) :
  P v -> Forall (fun kv => P (snd kv)) m ->
  Forall (fun kv => P (snd kv)) (Js.mapSet k v m).
Proof.
  intros Hv. induction m as [| [k' v'] m IH]; simpl; intros H.
  - repeat constructor. exact Hv.
  - inversion H as [| ? ? Hhd Htl]; subst.
    destruct (String.eqb k k'); constructor; auto.
Qed.

Lemma scanRegistration_wellFormed st registration :
  wellFormedOwners (extensionPointsByPlugin st) ->
  wellFormedOwners
    (extensionPointsByPlugin (scanRegistration st registration)).
Proof.
  intros [Hnd Hne]. unfold scanRegistration.
  destruct (reg_type registration); [now split |].
  destruct (testDepOf (extensionPointsToSort st) registration)
    as [| dep deps] eqn:Htest; [now split |].
  rewrite fold_pushAndDelete. cbn [extensionPointsByPlugin]. split.
  - now apply JsFacts.mapKeys_mapSet_NoDup.
  - apply mapSet_Forall with (P := fun ids : list string => ids <> []);
      [| assumption].
    simpl. intros H. apply app_eq_nil in H. destruct H as [_ H].
    discriminate.
Qed.

Lemma scanRegistrations_wellFormed registrations st :
  wellFormedOwners (extensionPointsByPlugin st) ->
  wellFormedOwners
    (extensionPointsByPlugin (scanRegistrations st registrations)).
Proof.
  revert st. induction registrations as [| r rs IH]; intros st H.
  - exact H.
  - unfold scanRegistrations in *. simpl. apply IH.
    now apply scanRegistration_wellFormed.
Qed.

(** A stored plugin owns at least one id, and only stored plugins own. *)
Lemma wellFormed_key_owns (byPlugin : Js.StrMap (list string)) pluginId :
  wellFormedOwners byPlugin ->
  (In pluginId (Js.mapKeys byPlugin) <-> exists id, ownedBy byPlugin pluginId id).
Proof.
  intros [Hnd Hne]. split.
  - intros Hin. unfold Js.mapKeys in Hin. apply in_map_iff in Hin.
    destruct Hin as [[k ids] [Hk Hin]]. simpl in Hk. subst k.
    rewrite Forall_forall in Hne. specialize (Hne _ Hin). simpl in Hne.
    destruct ids as [| id ids]; [congruence |].
    exists id, (id :: ids). split; [| now left].
    now apply JsFacts.mapGet_In_NoDup.
  - intros [id [ids [Hget _]]].
    destruct (in_dec string_dec pluginId (Js.mapKeys byPlugin)) as [H | H];
      [assumption |].
    apply JsFacts.mapGet_None_iff in H. congruence.
Qed.

(** The pending set starts as the supplied ids, each once, in the order
    of their first occurrence. *)
Lemma initialScan_pending tuples :
  extensionPointsToSort (initialScan tuples)
  = Js.mapKeys (extensionPointMapOf tuples).
Proof.
  unfold initialScan. cbn [extensionPointsToSort].
  apply JsFacts.setOf_NoDup. apply JsFacts.mapOf_NoDup.
Qed.

Lemma initialScan_pending_NoDup tuples :
  NoDup (extensionPointsToSort (initialScan tuples)).
Proof. rewrite initialScan_pending. apply JsFacts.mapOf_NoDup. Qed.

Lemma initialScan_pending_In tuples id :
  In id (extensionPointsToSort (initialScan tuples))
  <-> In id (suppliedIds tuples).
Proof.
  rewrite initialScan_pending. unfold extensionPointMapOf.
  rewrite JsFacts.mapOf_keys, map_map. reflexivity.
Qed.

(** A supplied id is a key of the tuple map, and the tuple stored there
    is one of the supplied tuples and carries that id. *)
Lemma extensionPointMap_lookup tuples id :
  In id (suppliedIds tuples) ->
  exists tuple,
    Js.mapGet id (extensionPointMapOf tuples) = Some tuple
    /\ In tuple tuples /\ ep_id (fst tuple) = id.
Proof.
  intros Hin. apply initialScan_pending_In in Hin.
  rewrite initialScan_pending in Hin.
  destruct (Js.mapGet id (extensionPointMapOf tuples)) as [tuple |] eqn:Hget.
  - exists tuple. split; [reflexivity |].
    apply JsFacts.mapOf_get in Hget. apply in_map_iff in Hget.
    destruct Hget as [t [[= Hid Ht] Hin']]. subst t. auto.
  - apply JsFacts.mapGet_None_iff in Hget. contradiction.
Qed.

(** The final owner map in terms of the registrations alone. *)
Lemma scan_owner_iff registrations tuples pluginId id :
  ownedBy (extensionPointsByPlugin
             (scanRegistrations (initialScan tuples) registrations))
          pluginId id
  <-> In id (suppliedIds tuples)
      /\ option_map (@reg_pluginId JsValue) (firstDependent id registrations)
         = Some pluginId.
Proof.
  rewrite scanRegistrations_owned, initialScan_pending_In. split.
  - intros [[ids [Hget _]] | H]; [discriminate | assumption].
  - auto.
Qed.

Lemma scan_pending_iff registrations tuples id :
  In id (extensionPointsToSort
           (scanRegistrations (initialScan tuples) registrations))
  <-> In id (suppliedIds tuples)
      /\ forall r, In r registrations -> dependsOn id r = false.
Proof.
  rewrite scanRegistrations_pending, filter_In, initialScan_pending_In.
  rewrite negb_true_iff. split; intros [H1 H2]; split; try assumption.
  - intros r Hr. destruct (dependsOn id r) eqn:E; [| reflexivity].
    assert (existsb (dependsOn id) registrations = true)
      by (apply existsb_exists; eauto).
    congruence.
  - destruct (existsb (dependsOn id) registrations) eqn:E; [| reflexivity].
    apply existsb_exists in E. destruct E as [r [Hr Hd]].
    rewrite (H2 r Hr) in Hd. discriminate.
Qed.

Lemma firstDependent_split id registrations before r after :
  registrations = before ++ r :: after ->
  (forall r', In r' before -> dependsOn id r' = false) ->
  dependsOn id r = true ->
  firstDependent id registrations = Some r.
Proof.
  intros -> Hbefore Hr. unfold firstDependent.
  induction before as [| b before IH]; simpl.
  - now rewrite Hr.
  - rewrite (Hbefore b) by now left. apply IH. intros r' Hr'.
    apply Hbefore. now right.
Qed.

Lemma unresolvedMessage_names (pending : Js.StrSet) id :
  In id pending ->
  contains (unresolvedMessage pending) ("'" ++ id ++ "'")%string.
Proof.
  intros Hin. unfold unresolvedMessage, contains.
  destruct (@JsFacts.join_contains ", " ("'" ++ id ++ "'")%string
              (map (fun id => "'" ++ id ++ "'")%string pending))
    as (pre & post & E).
  - apply in_map_iff. eauto.
  - rewrite E.
    exists ("Unable to determine the plugin ID of extension point(s) "
            ++ pre)%string.
    exists (post ++ ". "
            ++ "Tested extension points must be depended on by one or more tested modules.")%string.
    now rewrite !JsFacts.append_assoc.
Qed.

End OwnerMapFacts.

(* ================================================================== *)
(** * Properties of createExtensionPointTestModules *)

Section FeatureValidation.

Variable JsValue : Type.
Variable createBackendModule :
  BackendModuleConfig JsValue -> BackendFeature JsValue.

Local Abbreviation testModules :=
  (createExtensionPointTestModules createBackendModule).

Implicit Types (feature : BackendFeature JsValue)
         (features : list (BackendFeature JsValue))
         (registrations : list (Registration JsValue))
         (tuples : list (ExtensionPointTuple JsValue)).

Lemma flatMapFeatures_app features1 features2 registrations1 :
  flatMapFeatures features1 = Ok registrations1 ->
  flatMapFeatures (features1 ++ features2)
  = let* more := flatMapFeatures features2 in Ok (registrations1 ++ more).
Proof.
  revert registrations1.
  induction features1 as [| f fs IH]; intros regs1; simpl.
  - intros [= <-]. destruct (flatMapFeatures features2); reflexivity.
  - destruct (featureRegistrations f) as [regs |]; simpl; [| discriminate].
    destruct (flatMapFeatures fs) as [more |]; simpl; [| discriminate].
    intros [= <-]. rewrite (IH more eq_refl).
    destruct (flatMapFeatures features2); simpl; [| reflexivity].
    now rewrite app_assoc.
Qed.

Lemma flatMapFeatures_valid features :
  Forall (fun f => featureRegistrations f = Ok (f_getRegistrations f))
         features ->
  flatMapFeatures features
  = Ok (flat_map (@f_getRegistrations JsValue) features).
Proof.
  induction 1 as [| f fs Hf Hfs IH]; simpl; [reflexivity |].
  now rewrite Hf, IH.
Qed.

(** C5.  Feature normalization rejects a feature whose type tag is not
    ['@backstage/BackendFeature'] with an error naming that tag, rejects
    a feature with the right tag whose version is not ['v1'] with an
    error naming that version, and otherwise calls [getRegistrations];
    over a list, the first offending feature decides the error, and a
    list of accepted features yields all their registrations in order. *)
Theorem feature_normalization_checks_type_and_version :
  (forall feature,
      (f_type feature <> "@backstage/BackendFeature" ->
       featureRegistrations feature
       = Throw ("Failed to add feature, invalid type '"
                ++ f_type feature ++ "'")%string)
      /\ (f_type feature = "@backstage/BackendFeature" ->
          f_version feature <> "v1" ->
          featureRegistrations feature
          = Throw ("Failed to add feature, invalid version '"
                   ++ f_version feature ++ "'")%string)
      /\ (f_type feature = "@backstage/BackendFeature" ->
          f_version feature = "v1" ->
          featureRegistrations feature = Ok (f_getRegistrations feature)))
  /\ (forall accepted feature rest msg tuples,
         Forall (fun f => f_type f = "@backstage/BackendFeature"
                          /\ f_version f = "v1") accepted ->
         featureRegistrations feature = Throw msg ->
         flatMapFeatures (accepted ++ feature :: rest) = Throw msg
         /\ testModules (accepted ++ feature :: rest) (Some tuples)
            = Throw msg)
  /\ (forall accepted,
         Forall (fun f => f_type f = "@backstage/BackendFeature"
                          /\ f_version f = "v1") accepted ->
         flatMapFeatures accepted
         = Ok (flat_map (@f_getRegistrations JsValue) accepted)).
Proof.
  assert (Hone : forall feature,
             f_type feature = "@backstage/BackendFeature" ->
             f_version feature = "v1" ->
             featureRegistrations feature = Ok (f_getRegistrations feature)).
  { intros feature Ht Hv. unfold featureRegistrations.
    rewrite Ht, Hv. reflexivity. }
  assert (Hall : forall accepted,
             Forall (fun f => f_type f = "@backstage/BackendFeature"
                              /\ f_version f = "v1") accepted ->
             flatMapFeatures accepted
             = Ok (flat_map (@f_getRegistrations JsValue) accepted)).
  { intros accepted H. apply flatMapFeatures_valid.
    eapply Forall_impl; [| exact H]. intros f [Ht Hv]. now apply Hone. }
  split; [| split].
  - intros feature. unfold featureRegistrations. repeat split.
    + intros Hne. apply String.eqb_neq in Hne. now rewrite Hne.
    + intros Ht Hne. apply String.eqb_neq in Hne. rewrite Ht, Hne.
      reflexivity.
    + intros Ht Hv. rewrite Ht, Hv. reflexivity.
  - intros accepted feature rest msg tuples Hacc Hbad.
    assert (E : flatMapFeatures (accepted ++ feature :: rest) = Throw msg).
    { rewrite (@flatMapFeatures_app accepted (feature :: rest) _ (Hall accepted Hacc)).
      simpl.
      now rewrite Hbad. }
    split; [exact E |]. unfold createExtensionPointTestModules.
    now rewrite E.
  - exact Hall.
Qed.

End FeatureValidation.

(* ================================================================== *)
(** * Ownership resolution and the synthesized modules *)

Section OwnershipResolution.

Variable JsValue : Type.
Variable createBackendModule :
  BackendModuleConfig JsValue -> BackendFeature JsValue.

Local Abbreviation testModules :=
  (createExtensionPointTestModules createBackendModule).

Implicit Types (features : list (BackendFeature JsValue))
         (registration : Registration JsValue)
         (registrations : list (Registration JsValue))
         (tuples : list (ExtensionPointTuple JsValue))
         (st : ScanState) (id pluginId : string).

(** C1.  The pending set starts with one entry per supplied extension
    point id.  The scan visits the registrations once, in order, and
    ignores plugin-kind ones; at a module-kind registration every
    dependency whose id is pending is recorded under the registration's
    plugin and leaves the pending set.  What is pending after the scan
    are the supplied ids no module depends on, and if there is any,
    the function throws the error that names each of them and returns
    no module. *)
Theorem ownership_scan_resolves_or_names_unresolved
        features registrations tuples :
  flatMapFeatures features = Ok registrations ->
  let start := initialScan tuples in
  let final := scanRegistrations start registrations in
  (NoDup (extensionPointsToSort start)
   /\ (forall id, In id (extensionPointsToSort start)
                  <-> In id (suppliedIds tuples))
   /\ extensionPointsByPlugin start = [])
  /\ (forall st registration rest,
         scanRegistrations st (registration :: rest)
         = scanRegistrations (scanRegistration st registration) rest)
  /\ (forall st registration,
         reg_type registration = PluginReg ->
         scanRegistration st registration = st)
  /\ (forall st registration dep,
         reg_type registration = ModuleReg ->
         In dep (objectValues (reg_deps registration)) ->
         In (dep_id dep) (extensionPointsToSort st) ->
         let st' := scanRegistration st registration in
         ownedBy (extensionPointsByPlugin st')
                 (reg_pluginId registration) (dep_id dep)
         /\ ~ In (dep_id dep) (extensionPointsToSort st'))
  /\ (forall id, In id (extensionPointsToSort final)
                 <-> In id (suppliedIds tuples)
                     /\ forall r, In r registrations -> dependsOn id r = false)
  /\ (extensionPointsToSort final <> [] ->
      testModules features (Some tuples)
      = Throw (unresolvedMessage (extensionPointsToSort final))
      /\ forall id, In id (extensionPointsToSort final) ->
                    contains (unresolvedMessage (extensionPointsToSort final))
                             ("'" ++ id ++ "'")%string).
Proof.
  intros Hflat start final.
  split; [| split; [| split; [| split; [| split]]]].
  - split; [| split]; [| | reflexivity].
    + apply initialScan_pending_NoDup.
    + intros id. apply initialScan_pending_In.
  - reflexivity.
  - intros st registration Hty. unfold scanRegistration. now rewrite Hty.
  - intros st registration dep Hty Hdep Hpend st'.
    assert (Hd : dependsOn (dep_id dep) registration = true)
      by (apply dependsOn_true_iff; eauto).
    split.
    + apply scanRegistration_owned. right. auto.
    + subst st'. rewrite scanRegistration_pending, filter_In.
      intros [_ Hneg]. apply negb_true_iff in Hneg. congruence.
  - intros id. apply scan_pending_iff.
  - intros Hne. split.
    + unfold createExtensionPointTestModules. rewrite Hflat. simpl.
      unfold resolveOwnership. fold start. fold final.
      destruct (extensionPointsToSort final); [contradiction | reflexivity].
    + intros id Hin. now apply unresolvedMessage_names.
Qed.

(** The run of a synthesized [register] callback over ids that are all
    keys of the tuple map. *)
Lemma registerExtensionPoints_supplied tuples (ids : list string) :
  (forall id, In id ids -> In id (suppliedIds tuples)) ->
  exists eps,
    registerExtensionPoints (extensionPointMapOf tuples) ids
    = Ok (map (fun t => RegisterExtensionPoint (fst t) (snd t)) eps)
    /\ map (fun t => ep_id (fst t)) eps = ids
    /\ Forall (fun t => In t tuples
                        /\ Js.mapGet (ep_id (fst t)) (extensionPointMapOf tuples)
                           = Some t) eps.
Proof.
  induction ids as [| id ids IH]; intros Hsub.
  - exists []. repeat split. constructor.
  - destruct (@extensionPointMap_lookup JsValue tuples id) as (t & Hget & Hin & Hid);
      [apply Hsub; now left |].
    destruct IH as (eps & Hrun & Hids & Hall);
      [intros i Hi; apply Hsub; now right |].
    exists (t :: eps). simpl. rewrite Hget, Hrun. simpl.
    repeat split.
    + now rewrite Hid, Hids.
    + constructor; [| assumption]. split; [assumption |]. now rewrite Hid.
Qed.

(** C4.  When resolution succeeds, the result is one module per key of
    the owner map: the plugin ids of the modules are pairwise distinct
    and are exactly the plugins that own some extension point, that is,
    the plugins of the first dependent registrations.  Each module has
    the fixed module id, and its [register] callback registers, in
    order, the supplied tuple of every id resolved to its plugin and
    then an init with no dependencies and an empty body. *)
Theorem one_test_module_per_owning_plugin
        features registrations tuples byPlugin :
  flatMapFeatures features = Ok registrations ->
  resolveOwnership registrations tuples = Ok byPlugin ->
  let configs := testModuleConfigs (extensionPointMapOf tuples) byPlugin in
  testModules features (Some tuples) = Ok (map createBackendModule configs)
  /\ NoDup (map (@bm_pluginId JsValue) configs)
  /\ (forall pluginId,
         In pluginId (map (@bm_pluginId JsValue) configs)
         <-> exists id,
             In id (suppliedIds tuples)
             /\ option_map (@reg_pluginId JsValue)
                           (firstDependent id registrations) = Some pluginId)
  /\ (forall config,
         In config configs ->
         bm_moduleId config = "testExtensionPointRegistration"
         /\ exists ids eps,
             Js.mapGet (bm_pluginId config) byPlugin = Some ids
             /\ (forall id, In id ids <-> ownedBy byPlugin (bm_pluginId config) id)
             /\ map (fun t => ep_id (fst t)) eps = ids
             /\ Forall (fun t => In t tuples
                                 /\ Js.mapGet (ep_id (fst t))
                                              (extensionPointMapOf tuples)
                                    = Some t) eps
             /\ bm_register config
                = Ok (map (fun t => RegisterExtensionPoint (fst t) (snd t)) eps
                      ++ [RegisterInit [] (NoopInit JsValue)])).
Proof.
  intros Hflat Hres configs.
  unfold resolveOwnership in Hres.
  set (final := scanRegistrations (initialScan tuples) registrations) in *.
  destruct (extensionPointsToSort final) eqn:Hpend; [| discriminate].
  injection Hres as Hres.
  assert (Hwf : wellFormedOwners byPlugin).
  { rewrite <- Hres. apply scanRegistrations_wellFormed.
    split; simpl; constructor. }
  assert (Hkeys : map (@bm_pluginId JsValue) configs = Js.mapKeys byPlugin).
  { unfold configs, testModuleConfigs, Js.mapKeys. rewrite map_map.
    reflexivity. }
  assert (Howned : forall pluginId id,
             ownedBy byPlugin pluginId id
             <-> In id (suppliedIds tuples)
                 /\ option_map (@reg_pluginId JsValue)
                               (firstDependent id registrations)
                    = Some pluginId).
  { intros pluginId id. rewrite <- Hres. apply scan_owner_iff. }
  split; [| split; [| split]].
  - unfold createExtensionPointTestModules. rewrite Hflat. simpl.
    unfold resolveOwnership. fold final. rewrite Hpend, Hres. reflexivity.
  - rewrite Hkeys. apply Hwf.
  - intros pluginId. rewrite Hkeys, (wellFormed_key_owns pluginId Hwf).
    split; intros [id H]; exists id; now apply Howned.
  - intros config Hin. unfold configs, testModuleConfigs in Hin.
    apply in_map_iff in Hin. destruct Hin as [[pluginId ids] [<- Hin]].
    simpl. split; [reflexivity |].
    assert (Hget : Js.mapGet pluginId byPlugin = Some ids)
      by (apply JsFacts.mapGet_In_NoDup; [apply Hwf | assumption]).
    destruct (@registerExtensionPoints_supplied tuples ids)
      as (eps & Hrun & Hids & Hall).
    { intros id Hid. apply (Howned pluginId id). exists ids. auto. }
    exists ids, eps. repeat split; try assumption.
    + intros Hid. exists ids. auto.
    + intros [ids' [Hget' Hid]]. congruence.
    + unfold registerTestModule. now rewrite Hrun.
Qed.

(** C9.  If the registrations split into some that do not depend on a
    supplied id, then a module-kind registration that does, then any
    others (which may depend on it too, under any plugin), the id is
    owned by the plugin of that first dependent registration and by no
    other plugin, and it is not pending at the end, so the ownership
    error does not name it; if every supplied id has a dependent module
    the resolution returns the owner map.  The owner map is a function
    of the registrations and tuples. *)
Theorem first_dependent_registration_owns
        registrations tuples id before first after :
  In id (suppliedIds tuples) ->
  registrations = before ++ first :: after ->
  (forall r, In r before -> dependsOn id r = false) ->
  dependsOn id first = true ->
  let final := scanRegistrations (initialScan tuples) registrations in
  ownedBy (extensionPointsByPlugin final) (reg_pluginId first) id
  /\ (forall pluginId,
         ownedBy (extensionPointsByPlugin final) pluginId id ->
         pluginId = reg_pluginId first)
  /\ ~ In id (extensionPointsToSort final)
  /\ ((forall id', In id' (suppliedIds tuples) ->
                   exists r, In r registrations /\ dependsOn id' r = true) ->
      resolveOwnership registrations tuples
      = Ok (extensionPointsByPlugin final))
  /\ (forall final',
         final' = scanRegistrations (initialScan tuples) registrations ->
         extensionPointsByPlugin final' = extensionPointsByPlugin final).
Proof.
  intros Hsup Hsplit Hbefore Hfirst final.
  pose proof (@firstDependent_split _ id _ _ _ _ Hsplit Hbefore Hfirst) as Hfd.
  split; [| split; [| split; [| split]]].
  - apply scan_owner_iff. rewrite Hfd. auto.
  - intros pluginId H. apply scan_owner_iff in H. rewrite Hfd in H.
    destruct H as [_ [= H]]. now symmetry.
  - intros H. apply scan_pending_iff in H. destruct H as [_ H].
    rewrite (H first) in Hfirst; [discriminate |].
    rewrite Hsplit. apply in_or_app. right. now left.
  - intros Hall. unfold resolveOwnership. fold final.
    destruct (extensionPointsToSort final) as [| id' rest] eqn:Hpend;
      [reflexivity |].
    exfalso.
    assert (Hin : In id' (extensionPointsToSort final))
      by (rewrite Hpend; now left).
    apply scan_pending_iff in Hin. destruct Hin as [Hs Hno].
    destruct (Hall id' Hs) as [r [Hr Hd]]. rewrite (Hno r Hr) in Hd.
    discriminate.
  - intros final' ->. reflexivity.
Qed.

End OwnershipResolution.

(* ================================================================== *)
(** * Properties of startTestBackend and of the teardown *)

Section Harness.

Variable JsValue : Type.
Variable createBackendModule :
  BackendModuleConfig JsValue -> BackendFeature JsValue.
Variable coreServices : CoreServices.
Variable defaultServiceFactories : list (ServiceFactory JsValue).
Variable ExtendedHttpServer : Type.
Variable createHttpServer : N -> Result ExtendedHttpServer.
Variable serverStart : ExtendedHttpServer -> Result ExtendedHttpServer.
Variable serverPort : ExtendedHttpServer -> Result N.
Variable Backend : Type.
Variable createSpecializedBackend :
  list (ServiceFactoryOrFunction JsValue) -> Result Backend.
Variable backendStart : Backend -> list (BackendFeature JsValue) -> StartOutcome.
Variable backendStop : Backend -> Result unit.

Local Abbreviation backendServices :=
  (specializedBackendServices coreServices defaultServiceFactories).
Local Abbreviation start :=
  (startTestBackend createBackendModule coreServices defaultServiceFactories
                    createHttpServer serverStart
                    createSpecializedBackend backendStart).
Local Abbreviation routerRun := (rootHttpRouterRun createHttpServer serverStart).
Local Abbreviation discoveryOf := (discoveryRun serverPort).
Local Abbreviation routerFactory := (rootHttpRouterFactory JsValue coreServices).
Local Abbreviation discovery := (discoveryFactory JsValue coreServices).

Implicit Types (factories defaults : list (ServiceFactory JsValue))
         (services : list (ServiceDef JsValue)).

Lemma someServiceId_app id factories1 factories2 :
  someServiceId id (factories1 ++ factories2)
  = someServiceId id factories1 || someServiceId id factories2.
Proof. unfold someServiceId. apply existsb_app. Qed.

Lemma someServiceId_In (f : ServiceFactory JsValue) factories :
  In f factories -> someServiceId (serviceId f) factories = true.
Proof.
  intros H. unfold someServiceId. apply existsb_exists. exists f.
  split; [assumption | apply String.eqb_refl].
Qed.

(** The loop over the defaults only appends, and it appends a default
    exactly when its service id is not among the factories so far. *)
Lemma withDefaults_appends defaults factories :
  exists added,
    withDefaults factories defaults = factories ++ added
    /\ (forall d, In d added ->
                  In d defaults /\ someServiceId (serviceId d) factories = false)
    /\ (forall d, In d defaults ->
                  someServiceId (serviceId d) factories = false ->
                  someServiceId (serviceId d) added = true).
Proof.
  revert factories. induction defaults as [| d ds IH]; intros factories.
  - exists []. simpl. rewrite app_nil_r.
    split; [reflexivity | split; intros d []].
  - unfold withDefaults in *. simpl. unfold pushDefault at 2.
    destruct (someServiceId (serviceId d) factories) eqn:Hd; simpl.
    + destruct (IH factories) as (added & Heq & Honly & Hall).
      exists added. split; [exact Heq |]. split.
      * intros x Hx. destruct (Honly x Hx). auto.
      * intros x [<- | Hx] Hno; [congruence | now apply Hall].
    + destruct (IH (factories ++ [d])) as (added & Heq & Honly & Hall).
      exists (d :: added). split; [| split].
      * rewrite Heq. now rewrite <- app_assoc.
      * intros x [<- | Hx]; [auto |].
        destruct (Honly x Hx) as [Hin Hno].
        rewrite someServiceId_app in Hno. apply orb_false_iff in Hno.
        destruct Hno. auto.
      * intros x Hx Hno. unfold someServiceId at 1. simpl.
        destruct (String.eqb_spec (serviceId d) (serviceId x)) as [E | E];
          [reflexivity |]. simpl.
        destruct Hx as [<- | Hx]; [congruence |].
        apply Hall; [assumption |]. rewrite someServiceId_app, Hno. simpl.
        unfold someServiceId. simpl.
        destruct (String.eqb_spec (serviceId d) (serviceId x));
          [contradiction | reflexivity].
Qed.

(** C2.  The services given to [createSpecializedBackend] are the
    caller's factories, then the defaults that were appended, then the
    two HTTP bridge factories.  A default is appended only if no
    caller-supplied factory has its service id, every default whose id
    the caller did not supply is represented, and so each factory in the
    list built by the loop whose id the caller supplied is one of the
    caller's own. *)
Theorem defaults_appended_only_for_unsupplied_ids services :
  let explicit := map (@serviceDefFactory JsValue) services in
  exists added,
    withDefaults explicit defaultServiceFactories = explicit ++ added
    /\ backendServices services
       = map (@FactoryValue JsValue) explicit
         ++ map (@FactoryValue JsValue) added
         ++ [FactoryFunction routerFactory; FactoryFunction discovery]
    /\ (forall d, In d added ->
                  In d defaultServiceFactories
                  /\ someServiceId (serviceId d) explicit = false)
    /\ (forall d, In d defaultServiceFactories ->
                  someServiceId (serviceId d) explicit = false ->
                  someServiceId (serviceId d) added = true)
    /\ (forall f, In f (withDefaults explicit defaultServiceFactories) ->
                  someServiceId (serviceId f) explicit = true ->
                  In f explicit /\ ~ In f added).
Proof.
  intros explicit.
  destruct (withDefaults_appends defaultServiceFactories explicit)
    as (added & Heq & Honly & Hall).
  exists added. split; [exact Heq |]. split; [| split; [| split]].
  - unfold specializedBackendServices. fold explicit. rewrite Heq.
    now rewrite map_app, <- app_assoc.
  - exact Honly.
  - exact Hall.
  - intros f Hin Hsup.
    assert (Hnot : ~ In f added).
    { intros Hadd. destruct (Honly f Hadd). congruence. }
    split; [| exact Hnot]. rewrite Heq in Hin. apply in_app_or in Hin.
    destruct Hin; [assumption | contradiction].
Qed.

Lemma duplicateIds_keeps (ids : list string) (seen duplicates : Js.StrSet) x :
  In x duplicates -> In x (duplicateIds seen duplicates ids).
Proof.
  revert seen duplicates. induction ids as [| y rest IH];
    intros seen duplicates H; simpl; [exact H |].
  destruct (Js.setHas y seen); apply IH; [| exact H].
  apply JsFacts.setAdd_In. now left.
Qed.

Lemma duplicateIds_seen (ids : list string) (seen duplicates : Js.StrSet) x :
  In x seen -> In x ids -> In x (duplicateIds seen duplicates ids).
Proof.
  revert seen duplicates. induction ids as [| y rest IH];
    intros seen duplicates Hseen Hin; [destruct Hin |].
  simpl. destruct Hin as [-> | Hin].
  - rewrite (proj2 (JsFacts.setHas_true_iff x seen) Hseen).
    apply duplicateIds_keeps. apply JsFacts.setAdd_In. now right.
  - destruct (Js.setHas y seen); apply IH; try assumption.
    apply JsFacts.setAdd_In. now left.
Qed.

(** An id found at two positions is reported as a duplicate. *)
Lemma duplicateIds_twice (ids : list string) (seen duplicates : Js.StrSet)
      x i j :
  i <> j -> nth_error ids i = Some x -> nth_error ids j = Some x ->
  In x (duplicateIds seen duplicates ids).
Proof.
  revert seen duplicates i j. induction ids as [| y rest IH];
    intros seen duplicates i j Hij Hi Hj.
  - destruct i; discriminate.
  - assert (Hhead : forall k, nth_error rest k = Some x ->
                              In x (duplicateIds seen duplicates (x :: rest))).
    { intros k Hk. apply nth_error_In in Hk. simpl.
      destruct (Js.setHas x seen).
      - apply duplicateIds_keeps. apply JsFacts.setAdd_In. now right.
      - apply duplicateIds_seen; [| exact Hk].
        apply JsFacts.setAdd_In. now right. }
    destruct i as [| i], j as [| j]; simpl in Hi, Hj.
    + congruence.
    + injection Hi as ->. now apply (Hhead j).
    + injection Hj as ->. now apply (Hhead i).
    + simpl. destruct (Js.setHas y seen); apply (IH _ _ i j); auto.
Qed.

(** C10 (as amended).  Two explicit definitions at different positions
    with the same service id are both kept, each at its own position,
    in the array forwarded to [createSpecializedBackend], which
    therefore names that id twice: [startTestBackend] removes neither
    and checks nothing itself.  The decision is
    [createSpecializedBackend]'s: when it rejects the array,
    [startTestBackend] throws its error and lists no backend for
    cleanup; when it accepts, the backend is listed and any later error
    is the extension-point pass's, the start's or the [server]
    getter's.  A [createSpecializedBackend] that admits each service id
    once rejects the array with an error naming the id. *)
Theorem duplicate_explicit_services_are_forwarded
        services i j def1 def2 :
  i <> j ->
  nth_error services i = Some def1 ->
  nth_error services j = Some def2 ->
  serviceId (serviceDefFactory def1) = serviceId (serviceDefFactory def2) ->
  nth_error (backendServices services) i
  = Some (FactoryValue (serviceDefFactory def1))
  /\ nth_error (backendServices services) j
     = Some (FactoryValue (serviceDefFactory def2))
  /\ ~ NoDup (map (@producedId JsValue) (backendServices services))
  /\ (forall extensionPoints features cleanUp,
         let options := {| opt_services := Some services;
                           opt_extensionPoints := extensionPoints;
                           opt_features := features |} in
         match createSpecializedBackend (backendServices services) with
         | Throw msg => start options cleanUp = (Throw msg, cleanUp)
         | Ok backend =>
             snd (start options cleanUp) = cleanUp ++ [backend]
             /\ forall msg,
                 fst (start options cleanUp) = Throw msg ->
                 createExtensionPointTestModules
                   createBackendModule (orEmpty features) extensionPoints
                 = Throw msg
                 \/ (exists modules,
                        createExtensionPointTestModules
                          createBackendModule (orEmpty features)
                          extensionPoints = Ok modules
                        /\ so_result (backendStart
                                        backend (modules ++ orEmpty features))
                           = Throw msg)
                 \/ msg = "TestBackend server is not available"
         end)
  /\ (forall backendStartStrict extensionPoints features cleanUp,
         exists duplicates,
           In (serviceId (serviceDefFactory def1)) duplicates
           /\ startTestBackend
                createBackendModule coreServices defaultServiceFactories
                createHttpServer serverStart
                (@createSpecializedBackendStrict JsValue) backendStartStrict
                {| opt_services := Some services;
                   opt_extensionPoints := extensionPoints;
                   opt_features := features |} cleanUp
              = (Throw ("Duplicate service implementations provided for "
                        ++ Js.join ", " duplicates)%string,
                 cleanUp)).
Proof.
  intros Hij Hi Hj Hsame.
  destruct (withDefaults_appends defaultServiceFactories
              (map (@serviceDefFactory JsValue) services))
    as (added & Heq & _).
  assert (Hpre : backendServices services
                 = map (@FactoryValue JsValue)
                       (map (@serviceDefFactory JsValue) services)
                   ++ (map (@FactoryValue JsValue) added
                       ++ [FactoryFunction routerFactory;
                           FactoryFunction discovery])).
  { unfold specializedBackendServices. rewrite Heq.
    now rewrite map_app, <- app_assoc. }
  assert (Hnth : forall k def,
             nth_error services k = Some def ->
             nth_error (backendServices services) k
             = Some (FactoryValue (serviceDefFactory def))).
  { intros k def Hk. rewrite Hpre, nth_error_app1.
    - apply map_nth_error. now apply map_nth_error.
    - rewrite !length_map. apply nth_error_Some. congruence. }
  assert (Hidi : nth_error (map (@producedId JsValue)
                                (backendServices services)) i
                 = Some (serviceId (serviceDefFactory def1))).
  { now rewrite (@map_nth_error _ _ (@producedId JsValue) _ _ _
                                 (Hnth i def1 Hi)). }
  assert (Hidj : nth_error (map (@producedId JsValue)
                                (backendServices services)) j
                 = Some (serviceId (serviceDefFactory def1))).
  { rewrite (@map_nth_error _ _ (@producedId JsValue) _ _ _
                             (Hnth j def2 Hj)).
    unfold producedId. simpl. now rewrite Hsame. }
  split; [now apply Hnth |]. split; [now apply Hnth |].
  split; [| split].
  - intros Hnd. apply Hij.
    apply (proj1 (NoDup_nth_error _) Hnd i j).
    + apply nth_error_Some. congruence.
    + congruence.
  - intros extensionPoints features cleanUp options.
    unfold startTestBackend. simpl.
    destruct (createSpecializedBackend (backendServices services))
      as [backend | m]; [| reflexivity].
    destruct (createExtensionPointTestModules
                createBackendModule (orEmpty features) extensionPoints)
      as [modules | m]; simpl.
    + destruct (so_result (backendStart backend (modules ++ orEmpty features)))
        as [u | m] eqn:Hstart; simpl.
      * split; [reflexivity |]. intros msg. unfold assignServer.
        destruct (so_routerRan _); simpl.
        -- destruct (snd (routerRun None)); simpl; [discriminate |].
           intros [= <-]. auto.
        -- intros [= <-]. auto.
      * split; [reflexivity |]. intros msg [= ->]. right. left. eauto.
    + split; [reflexivity |]. intros msg [= ->]. auto.
  - intros backendStartStrict extensionPoints features cleanUp.
    pose proof (@duplicateIds_twice _ [] [] _ i j Hij Hidi Hidj) as Hdup.
    unfold startTestBackend. simpl. unfold createSpecializedBackendStrict.
    destruct (duplicateIds [] []
                (map (@producedId JsValue) (backendServices services)))
      as [| d ds]; [destruct Hdup |].
    exists (d :: ds). split; [exact Hdup | reflexivity].
Qed.

(** C8.  Without extension-point tuples the function returns the empty
    list whatever the features are, so a feature that the validation
    would reject is let through; with tuples, even an empty array of
    them, the same feature is rejected.  A [startTestBackend] without
    the [extensionPoints] option therefore never throws the validation
    error from this pass: it adds the features as they are. *)
Theorem no_extension_points_skips_validation :
  (forall features : list (BackendFeature JsValue),
      createExtensionPointTestModules createBackendModule features None
      = Ok [])
  /\ (forall feature rest msg tuples,
         featureRegistrations feature = Throw msg ->
         createExtensionPointTestModules
           createBackendModule (feature :: rest) None = Ok []
         /\ createExtensionPointTestModules
              createBackendModule (feature :: rest) (Some tuples)
            = Throw msg)
  /\ (forall servicesOption featuresOption cleanUp backend,
         createSpecializedBackend (backendServices (orEmpty servicesOption))
         = Ok backend ->
         let options := {| opt_services := servicesOption;
                           opt_extensionPoints := None;
                           opt_features := featuresOption |} in
         let outcome := backendStart backend (orEmpty featuresOption) in
         fst (start options cleanUp)
         = match so_result outcome with
           | Throw msg => Throw msg
           | Ok _ =>
               assignServer backend
                            (if so_routerRan outcome
                             then snd (routerRun None) else None)
           end).
Proof.
  split; [reflexivity |]. split.
  - intros feature rest msg tuples Hbad. split; [reflexivity |].
    unfold createExtensionPointTestModules. simpl. now rewrite Hbad.
  - intros servicesOption featuresOption cleanUp backend Hcreate options
           outcome.
    unfold startTestBackend. simpl. rewrite Hcreate. simpl.
    fold outcome. destruct (so_result outcome); reflexivity.
Qed.

(** C3 (as amended).  The discovery factory throws 'Test server not
    started yet' while the variable [server] is unset, and the variable
    is unset after a run of the root router factory only if creating
    the server failed.  As soon as the variable holds a server, started
    or not, the guard is passed and the result is what that server's
    [port()] gives.  When the root router factory has resolved, the
    variable holds the server it created and started, and the discovery
    factory returns a discovery built for [http://localhost:<port>] and
    listening on [<port>], where [<port>] is what that server's
    [port()] returns; the URL determines the port. *)
Theorem discovery_fails_while_server_unset_and_uses_bound_port :
  discoveryOf None = Throw "Test server not started yet"
  /\ (forall server,
         snd (routerRun server) = None
         <-> server = None /\ exists msg, createHttpServer 0%N = Throw msg)
  /\ (forall s,
         discoveryOf (Some s)
         = let* port := serverPort s in
           Ok {| backend_baseUrl :=
                   ("http://localhost:" ++ Js.showNumber port)%string;
                 backend_listen_port := port |})
  /\ (forall s port,
         serverPort s = Ok port ->
         discoveryOf (Some s)
         = Ok {| backend_baseUrl :=
                   ("http://localhost:" ++ Js.showNumber port)%string;
                 backend_listen_port := port |})
  /\ (forall server,
         fst (routerRun server) = Ok tt ->
         exists created started,
           createHttpServer 0%N = Ok created
           /\ serverStart created = Ok started
           /\ snd (routerRun server) = Some started
           /\ forall port,
               serverPort started = Ok port ->
               discoveryOf (snd (routerRun server))
               = Ok {| backend_baseUrl :=
                         ("http://localhost:" ++ Js.showNumber port)%string;
                       backend_listen_port := port |})
  /\ (forall port port',
         ("http://localhost:" ++ Js.showNumber port)%string
         = ("http://localhost:" ++ Js.showNumber port')%string ->
         port = port').
Proof.
  assert (Hbound : forall s port,
             serverPort s = Ok port ->
             discoveryOf (Some s)
             = Ok {| backend_baseUrl :=
                       ("http://localhost:" ++ Js.showNumber port)%string;
                     backend_listen_port := port |}).
  { intros s port Hport. unfold discoveryRun. now rewrite Hport. }
  split; [reflexivity |]. split; [| split; [reflexivity |]].
  2: split; [exact Hbound |]; split.
  - intros server. unfold rootHttpRouterRun.
    destruct (createHttpServer 0%N) as [created | m]; simpl.
    + destruct (serverStart created); simpl;
        (split; [discriminate | intros [_ [why Hwhy]]; discriminate Hwhy]).
    + split; [intros ->; eauto | tauto].
  - intros server. unfold rootHttpRouterRun.
    destruct (createHttpServer 0%N) as [created | m] eqn:Hcreate;
      [| discriminate].
    destruct (serverStart created) as [started | m] eqn:Hstart;
      [| discriminate].
    intros _. exists created, started.
    split; [reflexivity | split; [exact Hstart | split; [reflexivity |]]].
    intros port Hport. now apply Hbound.
  - intros port port' H. apply JsFacts.showNumber_inj.
    simpl in H. now injection H.
Qed.


Lemma fold_stopAndCatch (backends : list Backend) (p : Process Backend)
      (settled : list (Result unit)) :
  fold_left (stopAndCatch backendStop) backends (p, settled)
  = ({| backendInstancesToCleanUp := backendInstancesToCleanUp p;
        stopCalls := stopCalls p ++ backends;
        consoleErrors :=
          consoleErrors p ++ flat_map (stopFailureLog backendStop) backends |},
     settled ++ map (fun _ => Ok tt) backends).
Proof.
  revert p settled. induction backends as [| b bs IH]; intros p settled.
  - simpl. rewrite !app_nil_r. now destruct p.
  - simpl. unfold stopAndCatch at 2, stopFailureLog at 1.
    destruct (backendStop b) as [u | error]; simpl; rewrite IH; simpl;
      now rewrite <- !app_assoc.
Qed.

Lemma promiseAll_resolved (A : Type) (l : list A) :
  promiseAll (map (fun _ => Ok tt) l) = Ok tt.
Proof. induction l; simpl; auto. Qed.

(** C6.  The teardown calls [stop()] on every backend of the cleanup
    list, in order; a stop that rejects is logged with one
    'Failed to stop backend after tests' line and nothing is thrown, so
    the backends after a failing one are stopped as well, and the list
    is empty afterwards.  Every backend that [startTestBackend] created
    was put on that list, whether or not the rest of the start
    succeeded. *)
Theorem teardown_stops_every_backend_and_clears_list :
  (forall p : Process Backend,
      teardown backendStop p
      = (Ok tt,
         {| backendInstancesToCleanUp := [];
            stopCalls := stopCalls p ++ backendInstancesToCleanUp p;
            consoleErrors :=
              consoleErrors p
              ++ flat_map (stopFailureLog backendStop)
                          (backendInstancesToCleanUp p) |}))
  /\ (forall (p : Process Backend) before failing after error,
         backendInstancesToCleanUp p = before ++ failing :: after ->
         backendStop failing = Throw error ->
         let p' := snd (teardown backendStop p) in
         fst (teardown backendStop p) = Ok tt
         /\ In ("Failed to stop backend after tests, "
                ++ errorToString error)%string (consoleErrors p')
         /\ (forall b, In b after -> In b (stopCalls p'))
         /\ backendInstancesToCleanUp p' = [])
  /\ (forall options cleanUp backend,
         createSpecializedBackend
           (backendServices (orEmpty (opt_services options))) = Ok backend ->
         snd (start options cleanUp) = cleanUp ++ [backend])
  /\ (forall options cleanUp msg,
         createSpecializedBackend
           (backendServices (orEmpty (opt_services options))) = Throw msg ->
         start options cleanUp = (Throw msg, cleanUp)).
Proof.
  assert (Hrun : forall p : Process Backend,
             teardown backendStop p
             = (Ok tt,
                {| backendInstancesToCleanUp := [];
                   stopCalls := stopCalls p ++ backendInstancesToCleanUp p;
                   consoleErrors :=
                     consoleErrors p
                     ++ flat_map (stopFailureLog backendStop)
                                 (backendInstancesToCleanUp p) |})).
  { intros p. unfold teardown. rewrite fold_stopAndCatch. simpl.
    now rewrite promiseAll_resolved. }
  split; [exact Hrun |]. split; [| split].
  - intros p before failing after error Hlist Hfail p'. subst p'.
    rewrite Hrun. simpl. rewrite Hlist. repeat split.
    + apply in_or_app. right. apply in_flat_map. exists failing. split.
      * apply in_or_app. right. now left.
      * unfold stopFailureLog. rewrite Hfail. now left.
    + intros b Hb. apply in_or_app. right. apply in_or_app. right.
      now right.
  - intros options cleanUp backend Hcreate. unfold startTestBackend.
    rewrite Hcreate.
    destruct (createExtensionPointTestModules _ _ _); [| reflexivity].
    destruct (so_result _); reflexivity.
  - intros options cleanUp msg Hcreate. unfold startTestBackend.
    now rewrite Hcreate.
Qed.

(** The teardown is handed to [afterAll] at most once, and only where
    [afterAll] is a function. *)
Lemma registerTestHooks_once (afterAllIsFunction : bool) (h : HookState) :
  registerTestHooks afterAllIsFunction (registerTestHooks afterAllIsFunction h)
  = registerTestHooks afterAllIsFunction h
  /\ registerTestHooks false h = h
  /\ registerTestHooks true {| registered := false; afterAllHooks := 0 |}
     = {| registered := true; afterAllHooks := 1 |}.
Proof.
  split; [| split; reflexivity].
  unfold registerTestHooks. destruct afterAllIsFunction; simpl;
    [| reflexivity].
  destruct (registered h) eqn:E; simpl; [now rewrite E | reflexivity].
Qed.

End Harness.

(* ================================================================== *)
(** * The properties on sample inputs *)

(** A plugin and one of its modules are registered; [unowned.extension]
    is supplied but nothing depends on it, and the error names it. *)
Lemma ownership_scan_sample :
  flatMapFeatures [Demo.pluginA; Demo.moduleA]
  = Ok [Demo.pluginOf "pluginA"; Demo.moduleOn "pluginA"]
  /\ createExtensionPointTestModules
       Demo.createBackendModule [Demo.pluginA; Demo.moduleA]
       (Some [(Demo.extensionE, "fakeE"); (Demo.extensionF, "fakeF")])
     = Throw "Unable to determine the plugin ID of extension point(s) 'unowned.extension'. Tested extension points must be depended on by one or more tested modules.".
Proof.
  split; [reflexivity |].
  pose proof (@ownership_scan_resolves_or_names_unresolved
                Demo.Value Demo.createBackendModule
                [Demo.pluginA; Demo.moduleA]
                [Demo.pluginOf "pluginA"; Demo.moduleOn "pluginA"]
                [(Demo.extensionE, "fakeE"); (Demo.extensionF, "fakeF")]
                eq_refl) as H.
  cbv zeta in H. destruct H as (_ & _ & _ & _ & _ & H).
  destruct H as [H _]; [vm_compute; discriminate | exact H].
Defined.

(** Two modules under different plugins: [pluginA] gets
    [test.extension], [pluginB] gets [other.extension], and one module
    is synthesized for each. *)
Lemma one_test_module_per_owner_sample :
  flatMapFeatures [Demo.moduleA; Demo.moduleBoth]
  = Ok [Demo.moduleOn "pluginA"; Demo.moduleOnBoth]
  /\ resolveOwnership
       [Demo.moduleOn "pluginA"; Demo.moduleOnBoth]
       [(Demo.extensionE, "fakeE"); (Demo.extensionG, "fakeG")]
     = Ok [("pluginA", ["test.extension"]); ("pluginB", ["other.extension"])]
  /\ createExtensionPointTestModules
       Demo.createBackendModule [Demo.moduleA; Demo.moduleBoth]
       (Some [(Demo.extensionE, "fakeE"); (Demo.extensionG, "fakeG")])
     = Ok [Demo.createBackendModule
             {| bm_pluginId := "pluginA";
                bm_moduleId := "testExtensionPointRegistration";
                bm_register :=
                  Ok [RegisterExtensionPoint Demo.extensionE "fakeE";
                      RegisterInit [] (NoopInit Demo.Value)] |};
           Demo.createBackendModule
             {| bm_pluginId := "pluginB";
                bm_moduleId := "testExtensionPointRegistration";
                bm_register :=
                  Ok [RegisterExtensionPoint Demo.extensionG "fakeG";
                      RegisterInit [] (NoopInit Demo.Value)] |}].
Proof.
  split; [reflexivity |]. split; [reflexivity |].
  exact (proj1 (@one_test_module_per_owning_plugin
                  Demo.Value Demo.createBackendModule
                  [Demo.moduleA; Demo.moduleBoth]
                  [Demo.moduleOn "pluginA"; Demo.moduleOnBoth]
                  [(Demo.extensionE, "fakeE"); (Demo.extensionG, "fakeG")]
                  [("pluginA", ["test.extension"]);
                   ("pluginB", ["other.extension"])]
                  eq_refl eq_refl)).
Defined.

(** A plugin-kind registration, then modules of [pluginB] and of
    [pluginA] that both depend on [test.extension]: [pluginB] owns it. *)
Lemma first_dependent_registration_sample :
  In "test.extension" (suppliedIds [(Demo.extensionE, "fakeE")])
  /\ Demo.dependsOnSample = (false, true, true)
  /\ resolveOwnership
       [Demo.pluginOf "pluginA"; Demo.moduleOn "pluginB"; Demo.moduleOn "pluginA"]
       [(Demo.extensionE, "fakeE")]
     = Ok [("pluginB", ["test.extension"])].
Proof.
  split; [now left |]. split; [reflexivity |].
  pose proof (@first_dependent_registration_owns
                Demo.Value
                [Demo.pluginOf "pluginA"; Demo.moduleOn "pluginB";
                 Demo.moduleOn "pluginA"]
                [(Demo.extensionE, "fakeE")]
                "test.extension"
                [Demo.pluginOf "pluginA"] (Demo.moduleOn "pluginB")
                [Demo.moduleOn "pluginA"]
                (or_introl eq_refl) eq_refl) as H.
  cbv zeta in H.
  destruct H as (_ & _ & _ & H & _).
  - intros r [<- | []]. reflexivity.
  - reflexivity.
  - apply H. intros id' [<- | []]. exists (Demo.moduleOn "pluginB").
    split; [right; now left | reflexivity].
Defined.

(** Service [x] is defined twice; both factories are forwarded, and a
    backend creation that admits each id once rejects them. *)
Lemma duplicate_explicit_services_sample :
  nth_error (specializedBackendServices
               Demo.coreServices Demo.defaultServiceFactories
               Demo.duplicateServices) 0
  = Some (FactoryValue {| service := Demo.serviceX;
                          sf_deps := [];
                          sf_factory := ConstFactory "fake" |})
  /\ nth_error (specializedBackendServices
                  Demo.coreServices Demo.defaultServiceFactories
                  Demo.duplicateServices) 1
     = Some (FactoryValue Demo.factoryX)
  /\ ~ NoDup (map (@producedId Demo.Value)
                  (specializedBackendServices
                     Demo.coreServices Demo.defaultServiceFactories
                     Demo.duplicateServices)).
Proof.
  destruct (@duplicate_explicit_services_are_forwarded
              Demo.Value Demo.createBackendModule Demo.coreServices
              Demo.defaultServiceFactories Demo.HttpServer
              Demo.createHttpServer Demo.serverStart Demo.Backend
              Demo.createSpecializedBackend Demo.backendStart
              Demo.duplicateServices 0 1
              (DefTuple Demo.serviceX "fake") (DefFactory Demo.factoryX)
              (O_S 0) eq_refl eq_refl eq_refl) as (H0 & H1 & Hdup & _).
  split; [exact H0 | split; [exact H1 | exact Hdup]].
Defined.

(** With a backend creation that admits each service id once,
    [startTestBackend] on two explicit definitions of service [x]
    throws the conflict error and lists no backend. *)
Lemma duplicate_explicit_services_conflict :
  startTestBackend Demo.createBackendModule Demo.coreServices
                   Demo.defaultServiceFactories
                   Demo.createHttpServer Demo.serverStart
                   (@createSpecializedBackendStrict Demo.Value)
                   Demo.backendStart
                   {| opt_services := Some Demo.duplicateServices;
                      opt_extensionPoints := None;
                      opt_features := None |} []
  = (Throw "Duplicate service implementations provided for x", []).
Proof. reflexivity. Qed.

(** A feature with a foreign type tag and one with version [v2]. *)
Lemma feature_normalization_sample :
  featureRegistrations Demo.wrongType
  = Throw "Failed to add feature, invalid type '@backstage/FrontendPlugin'"
  /\ featureRegistrations Demo.wrongVersion
     = Throw "Failed to add feature, invalid version 'v2'"
  /\ createExtensionPointTestModules
       Demo.createBackendModule
       [Demo.moduleA; Demo.wrongVersion; Demo.wrongType] (Some [])
     = Throw "Failed to add feature, invalid version 'v2'"
  /\ flatMapFeatures [Demo.pluginA; Demo.moduleA]
     = Ok [Demo.pluginOf "pluginA"; Demo.moduleOn "pluginA"].
Proof.
  destruct (@feature_normalization_checks_type_and_version
              Demo.Value Demo.createBackendModule) as (Hone & Hfirst & Hall).
  split; [| split; [| split]].
  - destruct (Hone Demo.wrongType) as (H & _ & _). apply H. discriminate.
  - destruct (Hone Demo.wrongVersion) as (_ & H & _).
    apply H; [reflexivity | discriminate].
  - apply (Hfirst [Demo.moduleA] Demo.wrongVersion [Demo.wrongType]).
    + repeat constructor.
    + reflexivity.
  - apply (Hall [Demo.pluginA; Demo.moduleA]). repeat constructor.
Defined.

(** The feature with the foreign type tag passes when no extension
    points are given and is rejected when an empty array is given. *)
Lemma no_extension_points_sample :
  createExtensionPointTestModules
    Demo.createBackendModule [Demo.wrongType; Demo.moduleA] None = Ok []
  /\ createExtensionPointTestModules
       Demo.createBackendModule [Demo.wrongType; Demo.moduleA] (Some [])
     = Throw "Failed to add feature, invalid type '@backstage/FrontendPlugin'".
Proof.
  destruct (@no_extension_points_skips_validation
              Demo.Value Demo.createBackendModule Demo.coreServices
              Demo.defaultServiceFactories Demo.HttpServer
              Demo.createHttpServer Demo.serverStart Demo.Backend
              Demo.createSpecializedBackend Demo.backendStart)
    as (_ & H & _).
  apply (H Demo.wrongType [Demo.moduleA]). reflexivity.
Defined.

(** The listener is handed port 45871. *)
Lemma discovery_sample :
  discoveryRun Demo.serverPort None = Throw "Test server not started yet"
  /\ rootHttpRouterRun Demo.createHttpServer Demo.serverStart None
     = (Ok tt, Some {| Demo.srv_listenPort := 0;
                       Demo.srv_boundPort := Some 45871%N |})
  /\ discoveryRun
       Demo.serverPort
       (snd (rootHttpRouterRun Demo.createHttpServer Demo.serverStart None))
     = Ok {| backend_baseUrl := "http://localhost:45871";
             backend_listen_port := 45871 |}.
Proof.
  destruct (@discovery_fails_while_server_unset_and_uses_bound_port
              Demo.HttpServer Demo.createHttpServer Demo.serverStart
              Demo.serverPort) as (Hunset & _ & _ & _ & Hrun & _).
  split; [exact Hunset |]. split; [reflexivity |].
  destruct (Hrun None eq_refl) as (created & started & _ & _ & Hvar & H).
  injection Hvar as <-. exact (H 45871%N eq_refl).
Defined.

(** The root router factory created the server but its [start()]
    rejected: the server never started, yet the discovery factory does
    not throw 'Test server not started yet'. *)
Lemma discovery_after_rejected_start :
  rootHttpRouterRun Demo.createHttpServer Samples.serverStartFails None
  = (Throw "listen EADDRINUSE",
     Some {| Demo.srv_listenPort := 0; Demo.srv_boundPort := None |})
  /\ discoveryRun
       Demo.serverPort
       (snd (rootHttpRouterRun Demo.createHttpServer
                               Samples.serverStartFails None))
     <> Throw "Test server not started yet"
  /\ discoveryRun
       (fun _ : Demo.HttpServer => Ok 0%N)
       (snd (rootHttpRouterRun Demo.createHttpServer
                               Samples.serverStartFails None))
     = Ok {| backend_baseUrl := "http://localhost:0";
             backend_listen_port := 0 |}.
Proof. split; [reflexivity | split; [discriminate | reflexivity]]. Qed.


(** Three backends, the second of which fails to stop: all three are
    stopped, one line is logged, the list is emptied. *)
Lemma teardown_sample :
  teardown Demo.backendStop Demo.processBeforeTeardown
  = (Ok tt,
     {| backendInstancesToCleanUp := [];
        stopCalls := [[FactoryValue Demo.factoryX]; [];
                      [FactoryFunction Demo.factoryX]];
        consoleErrors :=
          ["Failed to stop backend after tests, Error: stuck"] |})
  /\ snd (startTestBackend Demo.createBackendModule Demo.coreServices
                           Demo.defaultServiceFactories
                           Demo.createHttpServer Demo.serverStart
                           Demo.createSpecializedBackend
                           Demo.backendStart Demo.plainOptions [[]])
     = [[]; specializedBackendServices
              Demo.coreServices Demo.defaultServiceFactories []].
Proof.
  destruct (@teardown_stops_every_backend_and_clears_list
              Demo.Value Demo.createBackendModule Demo.coreServices
              Demo.defaultServiceFactories Demo.HttpServer
              Demo.createHttpServer Demo.serverStart Demo.Backend
              Demo.createSpecializedBackend Demo.backendStart
              Demo.backendStop) as (Hrun & _ & Hpush & _).
  split.
  - exact (Hrun Demo.processBeforeTeardown).
  - apply (Hpush Demo.plainOptions [[]]). reflexivity.
Defined.

(** The caller supplies a fake logger: the mock logger is left out and
    the other twelve defaults are appended. *)
Example explicit_logger_replaces_default :
  specializedBackendServices
    Demo.coreServices Demo.defaultServiceFactories
    [DefTuple Demo.loggerRef "fakeLogger"]
  = map (@FactoryValue Demo.Value)
        [ {| service := Demo.loggerRef; sf_deps := [];
             sf_factory := ConstFactory "fakeLogger" |};
          Demo.mockFactory "cache" PluginScope;
          Demo.mockFactory "rootConfig" RootScope;
          Demo.mockFactory "database" PluginScope;
          Demo.mockFactory "httpRouter" PluginScope;
          Demo.mockFactory "identity" PluginScope;
          Demo.mockFactory "lifecycle" PluginScope;
          Demo.mockFactory "permissions" PluginScope;
          Demo.mockFactory "rootLifecycle" RootScope;
          Demo.mockFactory "rootLogger" RootScope;
          Demo.mockFactory "scheduler" PluginScope;
          Demo.mockFactory "tokenManager" PluginScope;
          Demo.mockFactory "urlReader" PluginScope ]
    ++ [ FactoryFunction (rootHttpRouterFactory Demo.Value Demo.coreServices);
         FactoryFunction (discoveryFactory Demo.Value Demo.coreServices) ].
Proof. reflexivity. Qed.

(* ================================================================== *)
(** * More on the ownership scan *)

Section ScanClosedForms.

Variable JsValue : Type.

Implicit Types (registration : Registration JsValue)
         (registrations : list (Registration JsValue))
         (tuples : list (ExtensionPointTuple JsValue))
         (st : ScanState) (id pluginId : string).

Lemma mapKeys_mapSet_setAdd (V : Type) k (v : V) (m : Js.StrMap V) :
  Js.mapKeys (Js.mapSet k v m) = Js.setAdd k (Js.mapKeys m).
Proof. rewrite JsFacts.mapKeys_mapSet. reflexivity. Qed.

Lemma mapKeys_fold_mapSet (V : Type) (entries : list (string * V))
      (m : Js.StrMap V) :
  Js.mapKeys (fold_left (fun m kv => Js.mapSet (fst kv) (snd kv) m) entries m)
  = fold_left (fun s x => Js.setAdd x s) (map fst entries) (Js.mapKeys m).
Proof.
  revert m. induction entries as [| [k v] entries IH]; intros m; simpl.
  - reflexivity.
  - now rewrite IH, mapKeys_mapSet_setAdd.
Qed.

(** The pending set starts as [new Set] of the supplied ids. *)
Lemma initialScan_pending_setOf tuples :
  extensionPointsToSort (initialScan tuples) = Js.setOf (suppliedIds tuples).
Proof.
  rewrite initialScan_pending. unfold extensionPointMapOf, Js.mapOf.
  rewrite mapKeys_fold_mapSet, map_map. reflexivity.
Qed.

(** X1.  Ownership resolution in closed form: the ids left pending are
    the supplied ids, each once and in the order of their first supply,
    that no module-kind registration depends on; resolution returns the
    owner map exactly when there is none, and otherwise throws the
    message listing them in that order. *)
Theorem resolveOwnership_closed_form registrations tuples :
  let unresolved :=
    filter (fun id => negb (existsb (dependsOn id) registrations))
           (Js.setOf (suppliedIds tuples)) in
  extensionPointsToSort (scanRegistrations (initialScan tuples) registrations)
  = unresolved
  /\ resolveOwnership registrations tuples
     = match unresolved with
       | [] => Ok (extensionPointsByPlugin
                     (scanRegistrations (initialScan tuples) registrations))
       | _ :: _ => Throw (unresolvedMessage unresolved)
       end.
Proof.
  intros unresolved.
  assert (E : extensionPointsToSort
                (scanRegistrations (initialScan tuples) registrations)
              = unresolved).
  { rewrite scanRegistrations_pending, initialScan_pending_setOf.
    reflexivity. }
  split; [exact E |]. unfold resolveOwnership. rewrite E.
  destruct unresolved; reflexivity.
Qed.

Lemma find_app_right (A : Type) (f : A -> bool) (l1 l2 : list A) :
  find f (l1 ++ l2)
  = match find f l1 with Some x => Some x | None => find f l2 end.
Proof.
  induction l1 as [| x l1 IH]; simpl; [reflexivity |].
  destruct (f x); [reflexivity | exact IH].
Qed.

Lemma mapGet_fold_mapSet (V : Type) (entries : list (string * V))
      (m : Js.StrMap V) k :
  Js.mapGet k (fold_left (fun m kv => Js.mapSet (fst kv) (snd kv) m) entries m)
  = match find (fun kv => String.eqb k (fst kv)) (rev entries) with
    | Some kv => Some (snd kv)
    | None => Js.mapGet k m
    end.
Proof.
  revert m. induction entries as [| [k' v] entries IH]; intros m; simpl.
  - reflexivity.
  - rewrite IH, find_app_right.
    destruct (find (fun kv => String.eqb k (fst kv)) (rev entries));
      [reflexivity |].
    simpl. destruct (String.eqb_spec k k') as [-> | Hne].
    + apply JsFacts.mapGet_mapSet_same.
    + now apply JsFacts.mapGet_mapSet_other.
Qed.

Lemma find_map_tuple tuples id :
  find (fun kv : string * ExtensionPointTuple JsValue => String.eqb id (fst kv))
       (map (fun ep => (ep_id (fst ep), ep)) tuples)
  = option_map (fun ep => (ep_id (fst ep), ep))
               (find (fun ep => String.eqb id (ep_id (fst ep))) tuples).
Proof.
  induction tuples as [| t tuples IH]; simpl; [reflexivity |].
  destruct (String.eqb id (ep_id (fst t))); [reflexivity | exact IH].
Qed.

(** X2.  When the same extension-point id is supplied more than once,
    the tuple map holds the tuple supplied last, and that is the one a
    synthesized module registers for the id; an id that was not supplied
    has no entry. *)
Theorem last_supplied_tuple_is_registered tuples id :
  Js.mapGet id (extensionPointMapOf tuples)
  = find (fun ep => String.eqb id (ep_id (fst ep))) (rev tuples)
  /\ (forall tuple,
         find (fun ep => String.eqb id (ep_id (fst ep))) (rev tuples)
         = Some tuple ->
         registerTestModule (extensionPointMapOf tuples) [id]
         = Ok [RegisterExtensionPoint (fst tuple) (snd tuple);
               RegisterInit [] (NoopInit JsValue)]).
Proof.
  assert (E : Js.mapGet id (extensionPointMapOf tuples)
              = find (fun ep => String.eqb id (ep_id (fst ep))) (rev tuples)).
  { unfold extensionPointMapOf, Js.mapOf.
    rewrite mapGet_fold_mapSet, <- map_rev, find_map_tuple.
    unfold ExtensionPointTuple.
    lazymatch goal with |- _ = ?found => destruct found end; reflexivity. }
  split; [exact E |]. intros tuple Hfound.
  unfold registerTestModule. simpl. rewrite E.
  unfold ExtensionPointTuple in *. rewrite Hfound. reflexivity.
Qed.

End ScanClosedForms.

(* ================================================================== *)
(** * How often and by whom an extension point is registered *)

Section ScanMultiplicity.

Variable JsValue : Type.
Variable createBackendModule :
  BackendModuleConfig JsValue -> BackendFeature JsValue.

Implicit Types (registration : Registration JsValue)
         (registrations : list (Registration JsValue))
         (tuples : list (ExtensionPointTuple JsValue))
         (st : ScanState) (id pluginId : string).

Local Abbreviation count := (count_occ string_dec).

Lemma setHas_iff_eq id (s1 s2 : Js.StrSet) :
  (In id s1 <-> In id s2) -> Js.setHas id s1 = Js.setHas id s2.
Proof.
  intros H. destruct (Js.setHas id s2) eqn:E.
  - apply JsFacts.setHas_true_iff. apply H.
    now apply JsFacts.setHas_true_iff.
  - apply JsFacts.setHas_false_iff. intros Hin. apply H in Hin.
    apply JsFacts.setHas_true_iff in Hin. congruence.
Qed.

Lemma setHas_filter id (f : string -> bool) (s : Js.StrSet) :
  Js.setHas id (filter f s) = Js.setHas id s && f id.
Proof.
  destruct (Js.setHas id s && f id) eqn:E.
  - apply andb_true_iff in E. destruct E as [E1 E2].
    apply JsFacts.setHas_true_iff, filter_In.
    split; [now apply JsFacts.setHas_true_iff | assumption].
  - apply JsFacts.setHas_false_iff. intros H. apply filter_In in H.
    destruct H as [H1 H2]. apply JsFacts.setHas_true_iff in H1.
    rewrite H1, H2 in E. discriminate.
Qed.

Lemma map_dep_id_filter (pending : Js.StrSet) (deps : list DepRef) :
  map dep_id (filter (fun dep => Js.setHas (dep_id dep) pending) deps)
  = filter (fun id => Js.setHas id pending) (map dep_id deps).
Proof.
  induction deps as [| d deps IH]; simpl; [reflexivity |].
  destruct (Js.setHas (dep_id d) pending); simpl; now rewrite IH.
Qed.

Lemma count_filter_has (pending : Js.StrSet) (ids : list string) id :
  count (filter (fun x => Js.setHas x pending) ids) id
  = if Js.setHas id pending then count ids id else 0.
Proof.
  induction ids as [| x ids IH]; simpl.
  - now destruct (Js.setHas id pending).
  - destruct (string_dec x id) as [-> | Hne].
    + destruct (Js.setHas id pending) eqn:E; simpl.
      * destruct (string_dec id id); [now rewrite IH | contradiction].
      * exact IH.
    + destruct (Js.setHas x pending); simpl; [| exact IH].
      destruct (string_dec x id); [contradiction | exact IH].
Qed.

Lemma pointsOf_mapSet (byPlugin : Js.StrMap (list string)) k v pluginId :
  pointsOf (Js.mapSet k v byPlugin) pluginId
  = if String.eqb k pluginId then v else pointsOf byPlugin pluginId.
Proof.
  unfold pointsOf. destruct (String.eqb_spec k pluginId) as [-> | Hne].
  - now rewrite JsFacts.mapGet_mapSet_same.
  - rewrite JsFacts.mapGet_mapSet_other; [reflexivity | congruence].
Qed.

(** One step of the scan, in terms of the ids alone. *)
Lemma scanRegistration_ids st registration :
  scanRegistration st registration
  = match reg_type registration with
    | PluginReg => st
    | ModuleReg =>
        let ids := filter (fun id => Js.setHas id (extensionPointsToSort st))
                          (map dep_id (objectValues (reg_deps registration))) in
        match ids with
        | [] => st
        | _ :: _ =>
            {| extensionPointsToSort :=
                 filter (fun id => negb (Js.setHas id ids))
                        (extensionPointsToSort st);
               extensionPointsByPlugin :=
                 Js.mapSet (reg_pluginId registration)
                           (pointsOf (extensionPointsByPlugin st)
                                     (reg_pluginId registration) ++ ids)
                           (extensionPointsByPlugin st) |}
        end
    end.
Proof.
  unfold scanRegistration. destruct (reg_type registration); [reflexivity |].
  cbv zeta. rewrite <- map_dep_id_filter. fold (testDepOf (extensionPointsToSort st) registration).
  destruct (testDepOf (extensionPointsToSort st) registration) as [| d ds];
    [reflexivity |].
  rewrite fold_pushAndDelete. reflexivity.
Qed.

Lemma dependsOn_false_count id registration :
  dependsOn id registration = false ->
  match reg_type registration with
  | ModuleReg => dependencyCount id registration
  | PluginReg => 0
  end = 0.
Proof.
  intros H. destruct (reg_type registration) eqn:Hty; [reflexivity |].
  unfold dependencyCount. apply count_occ_not_In. intros Hin.
  apply in_map_iff in Hin. destruct Hin as [dep [Hid Hdep]].
  assert (dependsOn id registration = true)
    by (apply dependsOn_true_iff; eauto).
  congruence.
Qed.

Lemma scanRegistration_points_count st registration pluginId id :
  count (pointsOf (extensionPointsByPlugin (scanRegistration st registration))
                  pluginId) id
  = count (pointsOf (extensionPointsByPlugin st) pluginId) id
    + (if String.eqb (reg_pluginId registration) pluginId
          && Js.setHas id (extensionPointsToSort st)
       then match reg_type registration with
            | ModuleReg => dependencyCount id registration
            | PluginReg => 0
            end
       else 0).
Proof.
  rewrite scanRegistration_ids.
  destruct (reg_type registration) eqn:Hty.
  - destruct (_ && _); lia.
  - cbv zeta.
    pose proof (count_filter_has (extensionPointsToSort st)
                  (map dep_id (objectValues (reg_deps registration))) id)
      as Hcount.
    fold (dependencyCount id registration) in Hcount.
    destruct (filter _ (map dep_id (objectValues (reg_deps registration))))
      as [| i ids] eqn:Hids.
    + simpl in Hcount.
      destruct (Js.setHas id (extensionPointsToSort st));
        [rewrite <- Hcount | idtac];
        destruct (String.eqb _ _); simpl; lia.
    + cbn [extensionPointsByPlugin]. rewrite pointsOf_mapSet.
      destruct (String.eqb_spec (reg_pluginId registration) pluginId)
        as [<- | Hne]; simpl.
      * rewrite count_occ_app, Hcount.
        destruct (Js.setHas id (extensionPointsToSort st)); lia.
      * lia.
Qed.

(** The whole scan: how often [id] is stored under [pluginId]. *)
Lemma scanRegistrations_points_count registrations st pluginId id :
  count (pointsOf (extensionPointsByPlugin
                     (scanRegistrations st registrations)) pluginId) id
  = count (pointsOf (extensionPointsByPlugin st) pluginId) id
    + (if Js.setHas id (extensionPointsToSort st)
       then match firstDependent id registrations with
            | Some r => if String.eqb (reg_pluginId r) pluginId
                        then dependencyCount id r else 0
            | None => 0
            end
       else 0).
Proof.
  revert st. induction registrations as [| r rs IH]; intros st.
  - simpl. destruct (Js.setHas id (extensionPointsToSort st)); lia.
  - unfold scanRegistrations in *. simpl fold_left. rewrite IH.
    rewrite scanRegistration_points_count, scanRegistration_pending,
      setHas_filter.
    unfold firstDependent. simpl find.
    destruct (dependsOn id r) eqn:Hdep; simpl.
    + rewrite andb_false_r.
      assert (Hty : reg_type r = ModuleReg)
        by (apply dependsOn_true_iff in Hdep; tauto).
      rewrite Hty.
      destruct (String.eqb (reg_pluginId r) pluginId),
               (Js.setHas id (extensionPointsToSort st)); simpl; lia.
    + rewrite andb_true_r, (dependsOn_false_count _ _ Hdep).
      destruct (String.eqb (reg_pluginId r) pluginId
                && Js.setHas id (extensionPointsToSort st)); lia.
Qed.

(** X3.  After the scan, an id is stored under a plugin as many times
    as the first registration that depends on it lists it among its
    init dependencies, provided the id was supplied and that
    registration belongs to the plugin; otherwise it is not stored
    under the plugin at all.  So an id named by two dependency keys of
    one module is registered twice by the synthesized module. *)
Theorem owner_lists_by_first_dependent registrations tuples pluginId id :
  count (pointsOf (extensionPointsByPlugin
                     (scanRegistrations (initialScan tuples) registrations))
                  pluginId) id
  = if Js.setHas id (suppliedIds tuples)
    then match firstDependent id registrations with
         | Some r => if String.eqb (reg_pluginId r) pluginId
                     then dependencyCount id r else 0
         | None => 0
         end
    else 0.
Proof.
  rewrite scanRegistrations_points_count.
  rewrite (@setHas_iff_eq id (extensionPointsToSort (initialScan tuples))
                          (suppliedIds tuples))
    by apply initialScan_pending_In.
  reflexivity.
Qed.

(** X4.  If no module names the same dependency id under two keys and
    resolution succeeds, every supplied extension point is stored
    exactly once, under the plugin of its first dependent registration,
    and under no other plugin. *)
Theorem each_supplied_point_registered_once
        registrations tuples byPlugin id :
  Forall (fun r => NoDup (map dep_id (objectValues (reg_deps r))))
         registrations ->
  resolveOwnership registrations tuples = Ok byPlugin ->
  In id (suppliedIds tuples) ->
  exists r,
    firstDependent id registrations = Some r
    /\ In r registrations
    /\ count (pointsOf byPlugin (reg_pluginId r)) id = 1
    /\ forall other, other <> reg_pluginId r ->
                     count (pointsOf byPlugin other) id = 0.
Proof.
  intros Hdistinct Hres Hsup. unfold resolveOwnership in Hres.
  set (final := scanRegistrations (initialScan tuples) registrations) in *.
  destruct (extensionPointsToSort final) eqn:Hpend; [| discriminate].
  injection Hres as <-.
  assert (Hhas : Js.setHas id (extensionPointsToSort (initialScan tuples))
                 = true).
  { apply JsFacts.setHas_true_iff. now apply initialScan_pending_In. }
  destruct (firstDependent id registrations) as [r |] eqn:Hfd.
  - unfold firstDependent in Hfd. pose proof (find_some _ _ Hfd) as [Hin Hdep].
    exists r. split; [reflexivity |]. split; [assumption |].
    assert (Hone : dependencyCount id r = 1).
    { unfold dependencyCount.
      rewrite Forall_forall in Hdistinct. specialize (Hdistinct r Hin).
      apply (NoDup_count_occ string_dec) with (x := id) in Hdistinct.
      apply dependsOn_true_iff in Hdep. destruct Hdep as [_ [dep [Hd <-]]].
      assert (In (dep_id dep) (map dep_id (objectValues (reg_deps r))))
        by now apply in_map.
      apply (count_occ_In string_dec) in H. lia. }
    split.
    + unfold final. rewrite scanRegistrations_points_count, Hhas.
      unfold firstDependent. rewrite Hfd, String.eqb_refl. simpl. lia.
    + intros other Hother. unfold final.
      rewrite scanRegistrations_points_count, Hhas.
      unfold firstDependent. rewrite Hfd.
      destruct (String.eqb_spec (reg_pluginId r) other);
        [congruence | reflexivity].
  - exfalso.
    assert (Hin : In id (extensionPointsToSort final)).
    { apply scan_pending_iff. split; [assumption |]. intros r Hr.
      destruct (dependsOn id r) eqn:E; [| reflexivity].
      unfold firstDependent in Hfd.
      now rewrite (find_none _ _ Hfd r Hr) in E. }
    rewrite Hpend in Hin. destruct Hin.
Qed.

(** X5.  Resolution reads nothing of a registration but its kind, its
    plugin id and the ids of its init dependencies, and nothing of the
    supplied tuples but their ids: registrations that differ in their
    init functions, in the extension points they declare, in the names
    of their dependencies or in whether a dependency is a service or an
    extension point are resolved alike. *)
Theorem resolution_reads_only_kinds_plugins_and_ids
        registrations1 registrations2 tuples1 tuples2 :
  map (@scanView JsValue) registrations1
  = map (@scanView JsValue) registrations2 ->
  suppliedIds tuples1 = suppliedIds tuples2 ->
  resolveOwnership registrations1 tuples1
  = resolveOwnership registrations2 tuples2.
Proof.
  intros Hviews Hids.
  assert (Hinit : initialScan tuples1 = initialScan tuples2).
  { unfold initialScan. f_equal.
    change (extensionPointsToSort (initialScan tuples1)
            = extensionPointsToSort (initialScan tuples2)).
    now rewrite !initialScan_pending_setOf, Hids. }
  assert (Hstep : forall st (r1 r2 : Registration JsValue),
             scanView r1 = scanView r2 ->
             scanRegistration st r1 = scanRegistration st r2).
  { intros st r1 r2 Hview. unfold scanView in Hview.
    injection Hview as Hty Hplugin Hdeps.
    rewrite !scanRegistration_ids, Hty, Hplugin, Hdeps. reflexivity. }
  assert (Hscan : forall st,
             scanRegistrations st registrations1
             = scanRegistrations st registrations2).
  { revert registrations2 Hviews.
    induction registrations1 as [| r1 rs1 IH];
      intros [| r2 rs2] Hviews st; try discriminate; [reflexivity |].
    simpl in Hviews. injection Hviews as Hview Hrest.
    unfold scanRegistrations in *. simpl.
    rewrite (Hstep st r1 r2) by (unfold scanView; congruence).
    now apply IH. }
  unfold resolveOwnership. now rewrite Hinit, Hscan.
Qed.

(** X6.  There are never more synthesized modules than distinct supplied
    extension-point ids, and there is at least one as soon as a tuple is
    supplied: an empty array of tuples yields no module. *)
Theorem no_more_modules_than_supplied_points features tuples modules :
  createExtensionPointTestModules createBackendModule features (Some tuples)
  = Ok modules ->
  length modules <= length (Js.setOf (suppliedIds tuples))
  /\ (modules = [] <-> tuples = []).
Proof.
  unfold createExtensionPointTestModules.
  destruct (flatMapFeatures features) as [registrations | m]; simpl;
    [| discriminate].
  unfold resolveOwnership.
  set (final := scanRegistrations (initialScan tuples) registrations).
  destruct (extensionPointsToSort final) eqn:Hpend; simpl; [| discriminate].
  intros [= <-]. unfold testModuleConfigs. rewrite !length_map.
  assert (Hwf : wellFormedOwners (extensionPointsByPlugin final)).
  { apply scanRegistrations_wellFormed. split; simpl; constructor. }
  destruct Hwf as [Hnd Hne].
  set (byPlugin := extensionPointsByPlugin final) in *.
  set (head := fun kv : string * list string => hd ""%string (snd kv)).
  assert (Hhead : forall kv, In kv byPlugin ->
                             ownedBy byPlugin (fst kv) (head kv)).
  { intros [p ids] Hin. rewrite Forall_forall in Hne.
    specialize (Hne _ Hin). simpl in Hne.
    destruct ids as [| i ids]; [congruence |].
    exists (i :: ids). split; [| now left].
    now apply JsFacts.mapGet_In_NoDup. }
  assert (Hbound : length byPlugin <= length (Js.setOf (suppliedIds tuples))).
  2: { split; [exact Hbound |]. split.
       - intros Hnil. destruct byPlugin as [| kv rest] eqn:Hby;
           [| discriminate].
         destruct tuples as [| t tuples']; [reflexivity | exfalso].
         assert (Hsup : In (ep_id (fst t)) (suppliedIds (t :: tuples')))
           by now left.
         destruct (firstDependent (ep_id (fst t)) registrations)
           as [r |] eqn:Hfd.
         + assert (Hown : ownedBy (extensionPointsByPlugin final)
                                  (reg_pluginId r) (ep_id (fst t))).
           { apply scan_owner_iff. now rewrite Hfd. }
           fold byPlugin in Hown. rewrite Hby in Hown.
           destruct Hown as [ids [Hget _]]. discriminate.
         + assert (Hin : In (ep_id (fst t)) (extensionPointsToSort final)).
           { apply scan_pending_iff. split; [assumption |]. intros r Hr.
             unfold firstDependent in Hfd.
             exact (find_none _ _ Hfd r Hr). }
           rewrite Hpend in Hin. destruct Hin.
       - intros ->. simpl in Hbound.
         destruct byPlugin; [reflexivity | simpl in Hbound; lia]. }
  rewrite <- (length_map head byPlugin).
  rewrite <- initialScan_pending_setOf.
  apply NoDup_incl_length.
  - apply NoDup_map_NoDup_ForallPairs.
    + intros [p ids] [q ids'] Hp Hq Heq.
      pose proof (Hhead _ Hp) as Hop. pose proof (Hhead _ Hq) as Hoq.
      rewrite Heq in Hop. simpl in Hop, Hoq.
      apply scan_owner_iff in Hop. apply scan_owner_iff in Hoq.
      destruct Hop as [_ Hop]. destruct Hoq as [_ Hoq].
      rewrite Hop in Hoq. injection Hoq as ->.
      f_equal.
      apply (JsFacts.mapGet_In_NoDup _ _ _ Hnd) in Hp.
      apply (JsFacts.mapGet_In_NoDup _ _ _ Hnd) in Hq.
      congruence.
    + eapply NoDup_map_inv. exact Hnd.
  - intros id Hin. apply in_map_iff in Hin.
    destruct Hin as [kv [<- Hkv]]. apply Hhead in Hkv.
    apply scan_owner_iff in Hkv. apply initialScan_pending_In. tauto.
Qed.

End ScanMultiplicity.

(* ================================================================== *)
(** * More on feature validation *)

Section ValidationExtras.

Variable JsValue : Type.

Implicit Types (feature : BackendFeature JsValue)
         (features : list (BackendFeature JsValue)).

Lemma featureRegistrations_Ok_iff feature registrations :
  featureRegistrations feature = Ok registrations
  <-> acceptedFeature feature /\ registrations = f_getRegistrations feature.
Proof.
  unfold featureRegistrations, acceptedFeature.
  destruct (String.eqb_spec (f_type feature) "@backstage/BackendFeature")
    as [Ht | Ht]; simpl.
  - destruct (String.eqb_spec (f_version feature) "v1") as [Hv | Hv]; simpl.
    + split; [intros [= <-]; auto | intros [_ ->]; reflexivity].
    + split; [discriminate | intros [[_ H] _]; contradiction].
  - split; [discriminate | intros [[H _] _]; contradiction].
Qed.

(** X7.  The validation pass is all or nothing: it returns
    registrations exactly when every feature carries the expected type
    tag and version, and then it returns the registrations of all
    features, concatenated in feature order; a single rejected feature
    anywhere in the list makes the whole pass throw. *)
Theorem validation_succeeds_iff_all_accepted features registrations :
  flatMapFeatures features = Ok registrations
  <-> Forall (@acceptedFeature JsValue) features
      /\ registrations = flat_map (@f_getRegistrations JsValue) features.
Proof.
  revert registrations. induction features as [| f fs IH];
    intros registrations; simpl.
  - split; [intros [= <-]; split; [constructor | reflexivity] |].
    intros [_ ->]. reflexivity.
  - destruct (featureRegistrations f) as [regs |] eqn:Hf; simpl.
    + apply featureRegistrations_Ok_iff in Hf. destruct Hf as [Hacc ->].
      destruct (flatMapFeatures fs) as [more |] eqn:Hfs; simpl.
      * destruct (proj1 (IH more) eq_refl) as [Hall ->].
        split.
        -- intros [= <-]. split; [now constructor | reflexivity].
        -- intros [_ ->]. reflexivity.
      * split; [discriminate |]. intros [Hall _].
        inversion Hall as [| ? ? _ Hrest]; subst.
        pose proof (proj2 (IH _) (conj Hrest eq_refl)) as Habs.
        discriminate Habs.
    + split; [discriminate |]. intros [Hall _].
      inversion Hall as [| ? ? Hacc _]; subst.
      assert (featureRegistrations f = Ok (f_getRegistrations f))
        by (apply featureRegistrations_Ok_iff; auto).
      congruence.
Qed.

End ValidationExtras.

(* ================================================================== *)
(** * More on the service list, the HTTP bridge and the teardown *)

Section HarnessExtras.

Variable JsValue : Type.
Variable createBackendModule :
  BackendModuleConfig JsValue -> BackendFeature JsValue.
Variable coreServices : CoreServices.
Variable defaultServiceFactories : list (ServiceFactory JsValue).
Variable ExtendedHttpServer : Type.
Variable createHttpServer : N -> Result ExtendedHttpServer.
Variable serverStart : ExtendedHttpServer -> Result ExtendedHttpServer.
Variable serverPort : ExtendedHttpServer -> Result N.
Variable Backend : Type.
Variable createSpecializedBackend :
  list (ServiceFactoryOrFunction JsValue) -> Result Backend.
Variable backendStart : Backend -> list (BackendFeature JsValue) -> StartOutcome.
Variable backendStop : Backend -> Result unit.

Local Abbreviation backendServices :=
  (specializedBackendServices coreServices defaultServiceFactories).
Local Abbreviation start :=
  (startTestBackend createBackendModule coreServices defaultServiceFactories
                    createHttpServer serverStart
                    createSpecializedBackend backendStart).
Local Abbreviation routerRun := (rootHttpRouterRun createHttpServer serverStart).
Local Abbreviation discoveryOf := (discoveryRun serverPort).
Local Abbreviation routerFactory := (rootHttpRouterFactory JsValue coreServices).
Local Abbreviation discovery := (discoveryFactory JsValue coreServices).

Implicit Types (factories defaults : list (ServiceFactory JsValue))
         (services : list (ServiceDef JsValue)).

Lemma someServiceId_ids id factories :
  someServiceId id factories = true <-> In id (map (@serviceId JsValue) factories).
Proof.
  unfold someServiceId. rewrite existsb_exists, in_map_iff. split.
  - intros [f [Hin Heq]]. apply String.eqb_eq in Heq. eauto.
  - intros [f [<- Hin]]. exists f. split; [assumption |].
    apply String.eqb_refl.
Qed.

Lemma pushDefault_NoDup factories d :
  NoDup (map (@serviceId JsValue) factories) ->
  NoDup (map (@serviceId JsValue) (pushDefault factories d)).
Proof.
  intros H. unfold pushDefault.
  destruct (someServiceId (serviceId d) factories) eqn:E; simpl;
    [assumption |].
  rewrite map_app. simpl. apply NoDup_app.
  - assumption.
  - repeat constructor. intros [].
  - intros id Hin [<- | []]. apply someServiceId_ids in Hin. congruence.
Qed.

(** X8.  The defaults loop never introduces a duplicate service id: if
    the caller's factories have pairwise distinct ids, so has the list
    after the loop, even when the default list itself repeats an id. *)
Theorem defaults_keep_service_ids_distinct factories defaults :
  NoDup (map (@serviceId JsValue) factories) ->
  NoDup (map (@serviceId JsValue) (withDefaults factories defaults)).
Proof.
  revert factories. induction defaults as [| d ds IH]; intros factories H.
  - exact H.
  - unfold withDefaults in *. simpl. apply IH.
    now apply pushDefault_NoDup.
Qed.

Lemma withDefaults_keeps id defaults factories :
  someServiceId id factories = true ->
  someServiceId id (withDefaults factories defaults) = true.
Proof.
  revert factories. induction defaults as [| d ds IH]; intros factories H.
  - exact H.
  - unfold withDefaults in *. simpl. apply IH. unfold pushDefault.
    destruct (someServiceId (serviceId d) factories); simpl;
      [assumption |].
    rewrite someServiceId_app, H. reflexivity.
Qed.

Lemma withDefaults_covers defaults factories d :
  In d defaults ->
  someServiceId (serviceId d) (withDefaults factories defaults) = true.
Proof.
  revert factories. induction defaults as [| d' ds IH];
    intros factories Hin; [destruct Hin |].
  destruct Hin as [<- | Hin].
  - unfold withDefaults. simpl. apply withDefaults_keeps.
    unfold pushDefault.
    destruct (someServiceId (serviceId d') factories) eqn:E; simpl;
      [assumption |].
    rewrite someServiceId_app. unfold someServiceId at 2. simpl.
    rewrite String.eqb_refl. now rewrite orb_true_r.
  - unfold withDefaults in *. simpl. now apply IH.
Qed.

Lemma withDefaults_nothing_to_add defaults factories :
  (forall d, In d defaults -> someServiceId (serviceId d) factories = true) ->
  withDefaults factories defaults = factories.
Proof.
  induction defaults as [| d ds IH]; intros H; [reflexivity |].
  unfold withDefaults in *. simpl. unfold pushDefault at 2.
  rewrite (H d) by now left. simpl. apply IH. intros d' Hd'. apply H.
  now right.
Qed.

(** X9.  After the defaults loop every default service id has a
    factory, and the loop is idempotent: running it again over its own
    result appends nothing. *)
Theorem defaults_cover_every_id_and_are_idempotent factories defaults :
  (forall d, In d defaults ->
             someServiceId (serviceId d) (withDefaults factories defaults)
             = true)
  /\ withDefaults (withDefaults factories defaults) defaults
     = withDefaults factories defaults.
Proof.
  split.
  - intros d Hd. now apply withDefaults_covers.
  - apply withDefaults_nothing_to_add. intros d Hd.
    now apply withDefaults_covers.
Qed.

(** X10.  The harness's root router and discovery factories are always
    the last two of the forwarded services, whatever the caller
    supplies; so an explicit definition for the root HTTP router's
    service id does not replace the harness's factory: both are
    forwarded, the explicit one first. *)
Theorem router_override_is_forwarded_with_harness_router services def :
  In def services ->
  serviceId (serviceDefFactory def) = sr_id (cs_rootHttpRouter coreServices) ->
  exists before between,
    backendServices services
    = before ++ FactoryValue (serviceDefFactory def)
      :: between ++ [FactoryFunction routerFactory; FactoryFunction discovery]
    /\ serviceId routerFactory = serviceId (serviceDefFactory def).
Proof.
  intros Hin Hid. apply in_split in Hin. destruct Hin as (l1 & l2 & ->).
  destruct (withDefaults_appends defaultServiceFactories
              (map (@serviceDefFactory JsValue) (l1 ++ def :: l2)))
    as (added & Heq & _).
  exists (map (@FactoryValue JsValue) (map (@serviceDefFactory JsValue) l1)).
  exists (map (@FactoryValue JsValue)
              (map (@serviceDefFactory JsValue) l2 ++ added)).
  split.
  - unfold specializedBackendServices. rewrite Heq.
    repeat (rewrite map_app || rewrite <- app_assoc || simpl).
    reflexivity.
  - now rewrite Hid.
Qed.

Lemma teardown_result (p : Process Backend) :
  teardown backendStop p
  = (Ok tt,
     {| backendInstancesToCleanUp := [];
        stopCalls := stopCalls p ++ backendInstancesToCleanUp p;
        consoleErrors :=
          consoleErrors p
          ++ flat_map (stopFailureLog backendStop)
                      (backendInstancesToCleanUp p) |}).
Proof.
  unfold teardown. rewrite fold_stopAndCatch. simpl.
  now rewrite promiseAll_resolved.
Qed.

(** X11.  A second teardown pass does nothing: once the list has been
    emptied, no backend is stopped again and nothing more is logged. *)
Theorem teardown_twice_is_teardown_once (p : Process Backend) :
  teardown backendStop (snd (teardown backendStop p))
  = (Ok tt, snd (teardown backendStop p)).
Proof.
  rewrite (teardown_result p). simpl. rewrite teardown_result. simpl.
  now rewrite !app_nil_r.
Qed.

(** X12.  However often [registerTestHooks] runs, at most one teardown
    hook is handed to [afterAll]: none where [afterAll] is not a
    function or the flag is already set, exactly one otherwise. *)
Theorem teardown_hook_registered_at_most_once
        (n : nat) (afterAllIsFunction : bool) (h : HookState) :
  Nat.iter n (registerTestHooks afterAllIsFunction) h
  = if afterAllIsFunction && negb (registered h) && negb (Nat.eqb n 0)
    then {| registered := true; afterAllHooks := S (afterAllHooks h) |}
    else h.
Proof.
  induction n as [| n IH]; simpl.
  - now rewrite andb_false_r.
  - rewrite IH. rewrite andb_true_r.
    unfold registerTestHooks.
    destruct afterAllIsFunction; simpl; [| reflexivity].
    destruct (registered h) eqn:Hreg; simpl.
    + now rewrite Hreg.
    + destruct (Nat.eqb n 0); simpl; [now rewrite Hreg | reflexivity].
Qed.

(** X13.  The root router factory stores the server before starting it.
    If creating the server fails, the variable is left as it was; if
    [start()] rejects, the factory rejects too, but the variable already
    holds the server that never started: from then on the getter returns
    that server and the discovery factory no longer throws 'Test server
    not started yet' but asks that server for its port. *)
Theorem failed_start_leaves_unstarted_server_visible :
  (forall server msg,
      createHttpServer 0%N = Throw msg ->
      routerRun server = (Throw msg, server))
  /\ (forall server created msg,
         createHttpServer 0%N = Ok created ->
         serverStart created = Throw msg ->
         routerRun server = (Throw msg, Some created)
         /\ serverGetter (snd (routerRun server)) = Ok created
         /\ discoveryOf (snd (routerRun server))
            = let* port := serverPort created in
              Ok {| backend_baseUrl :=
                      ("http://localhost:" ++ Js.showNumber port)%string;
                    backend_listen_port := port |}).
Proof.
  split.
  - intros server msg Hcreate. unfold rootHttpRouterRun. now rewrite Hcreate.
  - intros server created msg Hcreate Hstart.
    assert (E : routerRun server = (Throw msg, Some created)).
    { unfold rootHttpRouterRun. now rewrite Hcreate, Hstart. }
    rewrite E. repeat split.
Qed.

(** X14.  [startTestBackend] returns a test backend only if the start
    ran the harness's root router factory and resolved, and creating
    the server succeeded.  The server on the returned backend is then
    the one that factory created (as started, or as created if its
    [start()] rejected), it is the value of the variable [server], and
    the discovery factory builds its URL from that server's [port()]. *)
Theorem returned_server_is_the_one_discovery_uses options cleanUp tb cleanUp' :
  start options cleanUp = (Ok tb, cleanUp') ->
  (exists modules created,
      createSpecializedBackend
        (backendServices (orEmpty (opt_services options)))
      = Ok (tb_backend tb)
      /\ createExtensionPointTestModules
           createBackendModule (orEmpty (opt_features options))
           (opt_extensionPoints options) = Ok modules
      /\ so_routerRan
           (backendStart (tb_backend tb)
                         (modules ++ orEmpty (opt_features options))) = true
      /\ so_result
           (backendStart (tb_backend tb)
                         (modules ++ orEmpty (opt_features options))) = Ok tt
      /\ createHttpServer 0%N = Ok created
      /\ (serverStart created = Ok (tb_server tb)
          \/ (tb_server tb = created
              /\ exists msg, serverStart created = Throw msg))
      /\ snd (routerRun None) = Some (tb_server tb))
  /\ discoveryOf (snd (routerRun None))
     = let* port := serverPort (tb_server tb) in
       Ok {| backend_baseUrl :=
               ("http://localhost:" ++ Js.showNumber port)%string;
             backend_listen_port := port |}.
Proof.
  unfold startTestBackend.
  destruct (createSpecializedBackend _) as [backend | m] eqn:Hcreated;
    [| discriminate].
  destruct (createExtensionPointTestModules _ _ _) as [modules | m]
    eqn:Hmodules; [| discriminate].
  destruct (so_result _) as [[] | m] eqn:Hresult; [| discriminate].
  unfold assignServer.
  destruct (so_routerRan _) eqn:Hran; [| discriminate].
  unfold rootHttpRouterRun.
  destruct (createHttpServer 0%N) as [created | m] eqn:Hcreate;
    [| discriminate].
  destruct (serverStart created) as [started | m] eqn:Hstart; simpl;
    intros [= <- _]; simpl.
  - split; [| reflexivity]. exists modules, created.
    repeat (split; [assumption || reflexivity |]).
    split; [now left | reflexivity].
  - split; [| reflexivity]. exists modules, created.
    repeat (split; [assumption || reflexivity |]).
    split; [| reflexivity]. right. split; [reflexivity |]. eauto.
Qed.

End HarnessExtras.

(* ================================================================== *)
(** * The entity option filter *)

Section OptionFilter.

Import EntityOptionFilter.

Lemma includes_In (array : list string) (v : string) :
  includes array v = true <-> In v array.
Proof.
  unfold includes. rewrite existsb_exists. split.
  - intros [x [Hin Heq]]. apply String.eqb_eq in Heq. now subst.
  - intros Hin. exists v. split; [assumption | apply String.eqb_refl].
Qed.

(** X15.  The option filter accepts an entity exactly when every value
    of the filter is among the entity's [spec.options]; an entity
    without a spec or without options is accepted only by the empty
    filter, which accepts everything; and a filter on the values of two
    filters together accepts what both accept. *)
Theorem option_filter_accepts_supersets :
  (forall filter entity,
      filterEntity filter entity = true
      <-> incl (toQueryValue filter) (specOptions entity))
  /\ (forall entity, filterEntity {| values := [] |} entity = true)
  /\ (forall filter,
         filterEntity filter {| spec := None |} = true
         <-> toQueryValue filter = [])
  /\ (forall filter,
         filterEntity filter {| spec := Some {| spec_options := None |} |}
         = true
         <-> toQueryValue filter = [])
  /\ (forall values1 values2 entity,
         filterEntity {| values := values1 ++ values2 |} entity
         = filterEntity {| values := values1 |} entity
           && filterEntity {| values := values2 |} entity).
Proof.
  assert (Hiff : forall filter entity,
             filterEntity filter entity = true
             <-> incl (toQueryValue filter) (specOptions entity)).
  { intros filter entity. unfold filterEntity, toQueryValue, incl.
    rewrite forallb_forall. split; intros H v Hv.
    - apply includes_In. auto.
    - apply includes_In. auto. }
  assert (Hempty : forall filter entity,
             specOptions entity = [] ->
             (filterEntity filter entity = true <-> toQueryValue filter = [])).
  { intros filter entity Hopt. rewrite Hiff, Hopt. split.
    - intros H. destruct (toQueryValue filter) as [| v vs]; [reflexivity |].
      destruct (H v). now left.
    - intros ->. intros v []. }
  split; [exact Hiff |]. split; [reflexivity |].
  split; [intros filter; now apply Hempty |].
  split; [intros filter; now apply Hempty |].
  intros values1 values2 entity. unfold filterEntity. simpl.
  apply forallb_app.
Qed.

End OptionFilter.

(* ================================================================== *)
(** * The further properties on sample inputs *)

(** Two modules whose dependency ids are pairwise distinct:
    [test.extension] is stored once, under [pluginA] only. *)
Lemma each_supplied_point_registered_once_sample :
  count_occ string_dec
            (pointsOf [("pluginA", ["test.extension"]);
                       ("pluginB", ["other.extension"])] "pluginA")
            "test.extension" = 1
  /\ count_occ string_dec
               (pointsOf [("pluginA", ["test.extension"]);
                          ("pluginB", ["other.extension"])] "pluginB")
               "test.extension" = 0.
Proof.
  destruct (@each_supplied_point_registered_once
              Demo.Value
              [Demo.moduleOn "pluginA"; Demo.moduleOnBoth]
              [(Demo.extensionE, "fakeE"); (Demo.extensionG, "fakeG")]
              [("pluginA", ["test.extension"]);
               ("pluginB", ["other.extension"])]
              "test.extension")
    as (r & Hfirst & _ & Hone & Hnone).
  - repeat constructor; simpl; intuition discriminate.
  - reflexivity.
  - now left.
  - injection Hfirst as <-. split; [exact Hone |].
    apply Hnone. discriminate.
Defined.

(** A module that differs from [Demo.moduleOn "pluginA"] in everything
    the scan does not read is resolved like it. *)
Lemma resolution_reads_only_ids_sample :
  map (@scanView Demo.Value) [Samples.moduleOnLookalike]
  = map (@scanView Demo.Value) [Demo.moduleOn "pluginA"]
  /\ resolveOwnership [Samples.moduleOnLookalike]
                      [(Demo.extensionE, "one implementation")]
     = Ok [("pluginA", ["test.extension"])].
Proof.
  split; [reflexivity |].
  rewrite (@resolution_reads_only_kinds_plugins_and_ids
             Demo.Value
             [Samples.moduleOnLookalike] [Demo.moduleOn "pluginA"]
             [(Demo.extensionE, "one implementation")]
             [(Demo.extensionE, "another")]
             eq_refl eq_refl).
  reflexivity.
Defined.

(** Two supplied extension points, two owners, two modules. *)
Lemma no_more_modules_than_supplied_points_sample :
  exists modules,
    createExtensionPointTestModules
      Demo.createBackendModule [Demo.moduleA; Demo.moduleBoth]
      (Some [(Demo.extensionE, "fakeE"); (Demo.extensionG, "fakeG")])
    = Ok modules
    /\ length modules = 2
    /\ length modules
       <= length (Js.setOf (suppliedIds [(Demo.extensionE, "fakeE");
                                         (Demo.extensionG, "fakeG")])).
Proof.
  eexists. split; [reflexivity |]. split; [reflexivity |].
  apply (@no_more_modules_than_supplied_points
           Demo.Value Demo.createBackendModule
           [Demo.moduleA; Demo.moduleBoth]
           [(Demo.extensionE, "fakeE"); (Demo.extensionG, "fakeG")]).
  reflexivity.
Defined.

(** A fake logger and a default list that names every mock twice. *)
Lemma defaults_keep_service_ids_distinct_sample :
  NoDup (map (@serviceId Demo.Value)
             (withDefaults
                [serviceDefFactory (DefTuple Demo.loggerRef "fakeLogger")]
                (Demo.defaultServiceFactories
                 ++ Demo.defaultServiceFactories)))
  /\ length (withDefaults
               [serviceDefFactory (DefTuple Demo.loggerRef "fakeLogger")]
               (Demo.defaultServiceFactories
                ++ Demo.defaultServiceFactories)) = 13.
Proof.
  split; [| reflexivity].
  apply (@defaults_keep_service_ids_distinct Demo.Value).
  repeat constructor. intros [].
Defined.

(** The caller replaces the root HTTP router: the forwarded services
    hold the replacement and the harness's router. *)
Lemma router_override_sample :
  exists before between,
    specializedBackendServices
      Demo.coreServices Demo.defaultServiceFactories [Samples.routerOverride]
    = before
      ++ FactoryValue (serviceDefFactory Samples.routerOverride)
      :: between
      ++ [FactoryFunction (rootHttpRouterFactory Demo.Value Demo.coreServices);
          FactoryFunction (discoveryFactory Demo.Value Demo.coreServices)]
    /\ serviceId (rootHttpRouterFactory Demo.Value Demo.coreServices)
       = serviceId (serviceDefFactory Samples.routerOverride).
Proof.
  exact (@router_override_is_forwarded_with_harness_router
           Demo.Value Demo.coreServices Demo.defaultServiceFactories
           [Samples.routerOverride] Samples.routerOverride
           (or_introl eq_refl) eq_refl).
Defined.

(** A started backend: the start ran the root router factory, and
    discovery advertises the port of the server the returned backend
    exposes. *)
Lemma returned_server_sample :
  exists tb cleanUp,
    startTestBackend Demo.createBackendModule Demo.coreServices
                     Demo.defaultServiceFactories
                     Demo.createHttpServer Demo.serverStart
                     Demo.createSpecializedBackend
                     Demo.backendStart Demo.plainOptions []
    = (Ok tb, cleanUp)
    /\ so_routerRan (Demo.backendStart (tb_backend tb) [Demo.pluginA]) = true
    /\ Demo.serverPort (tb_server tb) = Ok 45871%N
    /\ discoveryRun
         Demo.serverPort
         (snd (rootHttpRouterRun Demo.createHttpServer Demo.serverStart None))
       = Ok {| backend_baseUrl := "http://localhost:45871";
               backend_listen_port := 45871 |}.
Proof.
  eexists. eexists. split; [reflexivity |]. split; [reflexivity |].
  split; [reflexivity |].
  exact (proj2 (@returned_server_is_the_one_discovery_uses
                  Demo.Value Demo.createBackendModule Demo.coreServices
                  Demo.defaultServiceFactories Demo.HttpServer
                  Demo.createHttpServer Demo.serverStart Demo.serverPort
                  Demo.Backend Demo.createSpecializedBackend
                  Demo.backendStart Demo.plainOptions [] _ _ eq_refl)).
Defined.

(** [test.extension] is supplied twice and named by two dependency keys
    of one module: the later implementation is the one registered, and
    the id is stored twice. *)
Example supplied_twice_and_named_twice :
  Js.mapGet "test.extension" (extensionPointMapOf Samples.suppliedTwice)
  = Some (Demo.extensionE, "second")
  /\ extensionPointsByPlugin
       (scanRegistrations (initialScan Samples.suppliedTwice)
                          [Samples.moduleTwice])
     = [("pluginA", ["test.extension"; "test.extension"])]
  /\ resolveOwnership [Samples.moduleTwice] Samples.suppliedTwice
     = Throw (unresolvedMessage ["other.extension"]).
Proof. repeat split. Qed.

(** The start of a server fails: the getter still returns the server. *)
Example failed_start_sample :
  rootHttpRouterRun Demo.createHttpServer Samples.serverStartFails None
  = (Throw "listen EADDRINUSE",
     Some {| Demo.srv_listenPort := 0; Demo.srv_boundPort := None |})
  /\ discoveryRun
       Demo.serverPort
       (snd (rootHttpRouterRun Demo.createHttpServer
                               Samples.serverStartFails None))
     = Throw "Unexpected server address 'null'".
Proof. split; reflexivity. Qed.

(** An entity with three options against filters of two values. *)
Example option_filter_sample :
  EntityOptionFilter.filterEntity
    {| EntityOptionFilter.values := ["option1"; "option3"] |}
    (Samples.entityWith ["option3"; "option2"; "option1"]) = true
  /\ EntityOptionFilter.filterEntity
       {| EntityOptionFilter.values := ["option1"; "option4"] |}
       (Samples.entityWith ["option3"; "option2"; "option1"]) = false.
Proof. split; reflexivity. Qed.
